(** * Routine-state derivation engine of the study-routine planner

    A shallow embedding of the pure core of [app_gsheet.py]: the calendar
    and phase resolver, the schedule generator, the log aggregator
    (streak, lecture credits, grades), the check-in save handler and the
    subject synchroniser, followed by the properties proved about them.

    Conventions.
    - A Python [str] is a [string] holding its UTF-8 encoding.  UTF-8 is
      self-synchronising, so on encoded text the byte-level prefix and
      substring tests below coincide with Python's code-point-level
      [startswith] and [in].
    - A Python [int] is a [Z]; [//] on a positive divisor is [Z.div].
    - A [datetime.date] is its proleptic Gregorian ordinal
      ([date.toordinal()]), so that subtracting two dates and taking
      [.days] is subtraction in [Z].
    - A pandas data frame is the list of its rows, in row order. *)

From Stdlib Require Import ZArith QArith Lia Ascii.
From stdpp Require Import gmap strings list fin_maps sorting.

Local Open Scope Z_scope.

(** ** Python string operations *)

Module PyStr.

Definition code (a : ascii) : Z := Z.of_N (Ascii.N_of_ascii a).

(** [str.isspace] on the code points that UTF-8 encodes in one byte:
    U+0009..U+000D, U+001C..U+001F and U+0020. *)
Definition is_space1 (a : ascii) : bool :=
  let c := code a in
  ((9 <=? c) && (c <=? 13)) || ((28 <=? c) && (c <=? 32)).

(** Two-byte white space: U+0085 and U+00A0. *)
Definition is_space2 (a b : ascii) : bool :=
  (code a =? 194) && ((code b =? 133) || (code b =? 160)).

(** Three-byte white space: U+1680, U+2000..U+200A, U+2028, U+2029,
    U+202F, U+205F and U+3000. *)
Definition is_space3 (a b c : ascii) : bool :=
  ((code a =? 225) && (code b =? 154) && (code c =? 128))
  || ((code a =? 226) && (code b =? 128)
      && (((128 <=? code c) && (code c <=? 138))
          || (code c =? 168) || (code c =? 169) || (code c =? 175)))
  || ((code a =? 226) && (code b =? 129) && (code c =? 159))
  || ((code a =? 227) && (code b =? 128) && (code c =? 128)).

(** [s.lstrip()] *)
Fixpoint lstrip (s : string) : string :=
  match s with
  | String a r1 =>
      if is_space1 a then lstrip r1
      else match r1 with
           | String b r2 =>
               if is_space2 a b then lstrip r2
               else match r2 with
                    | String c r3 => if is_space3 a b c then lstrip r3 else s
                    | EmptyString => s
                    end
           | EmptyString => s
           end
  | EmptyString => s
  end.

(** The same scan on the reversed string, where the bytes of a
    character arrive last byte first. *)
Fixpoint lstrip_rev (s : string) : string :=
  match s with
  | String a r1 =>
      if is_space1 a then lstrip_rev r1
      else match r1 with
           | String b r2 =>
               if is_space2 b a then lstrip_rev r2
               else match r2 with
                    | String c r3 => if is_space3 c b a then lstrip_rev r3 else s
                    | EmptyString => s
                    end
           | EmptyString => s
           end
  | EmptyString => s
  end.

(** [s.rstrip()] *)
Definition rstrip (s : string) : string :=
  String.rev (lstrip_rev (String.rev s)).

(** [s.strip()] *)
Definition strip (s : string) : string := rstrip (lstrip s).

(** [s.startswith(p)] *)
Fixpoint startswith (s p : string) {struct p} : bool :=
  match p, s with
  | EmptyString, _ => true
  | String a p', String b s' => bool_decide (a = b) && startswith s' p'
  | String _ _, EmptyString => false
  end.

(** Number of bytes of the character whose first byte is [a]. *)
Definition char_width (a : ascii) : nat :=
  let c := code a in
  if c <? 192 then 1%nat else if c <? 224 then 2%nat
  else if c <? 240 then 3%nat else 4%nat.

Fixpoint drop_bytes (n : nat) (s : string) : string :=
  match n, s with
  | S n', String _ s' => drop_bytes n' s'
  | _, _ => s
  end.

(** [s[1:]]: the string without its first character. *)
Definition tail (s : string) : string :=
  match s with
  | String a _ => drop_bytes (char_width a) s
  | EmptyString => s
  end.

(** [p in s] *)
Fixpoint contains (p s : string) : bool :=
  startswith s p
  || match s with
     | String _ s' => contains p s'
     | EmptyString => false
     end.

End PyStr.

(** ** Calendar and phase resolver *)

(** A [datetime.date], as its ordinal. *)
Definition date : Type := Z.
Bind Scope Z_scope with date.

(** [d.weekday()]: Monday is 0.  Ordinal 1 (0001-01-01) is a Monday. *)
Definition weekday (d : date) : Z := (d + 6) mod 7.

Definition get_week_number (start_date target_date : date) : Z :=
  let delta := target_date - start_date in
  Z.max 1 (delta / 7 + 1).

Definition get_phase_by_week (week_num : Z) : Z :=
  if decide (week_num <= 1) then 1
  else if decide (week_num <= 3) then 2
  else if decide (week_num <= 6) then 3
  else 4.

Definition get_day_type (d : date) : string :=
  let w := weekday d in
  if decide (w < 5) then "weekday" else if decide (w = 5) then "sat" else "sun".

(** [get_week_range].  A [date] has an ordinal from 1 (0001-01-01) to
    3652059 (9999-12-31); for the dates up to 3652053 the Sunday of the
    week is a date too, later ones make the source raise. *)
Definition get_week_range (d : date) : date * date :=
  let start := d - weekday d in
  (start, start + 6).

(** ** Schedule generator *)

(** One schedule tuple: (time, name, category, minutes, desc). *)
Definition schedule_item : Type := string * string * string * Z * string.

Definition get_detailed_schedule (phase : Z) (day_type mode : string) : list schedule_item :=
  if decide (mode = "off") then
    [ ("전일", "OFF 모드 (완전 휴식)", "rest", 0, "푹 쉬고 내일 복귀하세요") ]
  else if decide (day_type = "weekday") then
    [ ("05:30", "기상 + 준비", "morning", 0, "물 한잔, 세수, 스트레칭");
      ("06:00-07:20", "출근 이동", "morning", 0, "") ]
    ++ (if decide (phase >= 1) then
          [ ("07:40-08:40", "☕ 아침 카페 출석", "study", 0, "카페 도착 = 오늘 50% 성공") ]
        else [])
    ++ (if decide (phase >= 2) then
          [ ("07:40-08:10", "   └ 전날 인강 다시 보기", "study", 30, "표시해둔 구간만 복습");
            ("08:10-08:40", "   └ 복습용 문풀", "study", 30, "전날 강의 내용 5~7문제") ]
        else [])
    ++ [ ("09:00-18:00", "💼 회사", "work", 0, "");
         ("18:00-20:00", "퇴근 + 저녁", "rest", 0, "");
         ("20:00-20:45", "저녁 휴식", "rest", 0, "유튜브/게임 가능 (공부 시작 전까지만)") ]
    ++ (if decide (phase >= 1) then
          [ ("20:45", "🪑 저녁 출석 (앉기)", "study", 0, "의자에 앉는 순간 70% 성공") ]
        else [])
    ++ (if decide (phase = 1) then
          [ ("20:45-21:30", "   └ 인강 틀어놓기/책 펴놓기", "study", 45, "이해 0%여도 상관없음, 모양만");
            ("21:30-22:00", "🏋️ 운동 30분", "exercise", 0, "로잉/유산소");
            ("22:00-22:20", "🚿 샤워", "exercise", 0, "모드 전환 의식");
            ("22:20-23:00", "책상 앞 유지", "study", 0, "민법책 펼쳐보기, 자서전 읽기, 멍") ]
        else if decide (phase = 2) then
          [ ("20:45-21:30", "📚 인강 1강", "study", 45, "제대로 들어보려고 노력");
            ("21:30-22:00", "🏋️ 운동 30분", "exercise", 0, "");
            ("22:00-22:20", "🚿 샤워", "exercise", 0, "");
            ("22:20-23:00", "📚 인강 이어서 or 복습", "study", 40, "2번째 강의 시작해보기") ]
        else if decide (phase = 3) then
          [ ("20:45-21:30", "📚 인강 1강", "study", 45, "");
            ("21:30-21:50", "✏️ 1차 문풀", "study", 20, "방금 들은 1강 관련 4-6문제");
            ("21:50-22:20", "🏋️ 운동 30분", "exercise", 0, "");
            ("22:20-22:35", "🚿 샤워", "exercise", 0, "");
            ("22:35-23:20", "📚 인강 2강", "study", 45, "");
            ("23:20-23:40", "📖 복습 + 정리", "study", 20, "오늘 내용 핵심 메모") ]
        else if decide (phase = 4) then
          [ ("20:45-21:30", "📚 인강 1강", "study", 45, "오늘 3강 중 1강");
            ("21:30-21:50", "✏️ 1차 문풀", "study", 20, "1강 관련 4-6문제");
            ("21:50-22:20", "🏋️ 운동 30분", "exercise", 0, "월/수/금 or 화/목");
            ("22:20-22:35", "🚿 샤워 15분", "exercise", 0, "공부 모드 스위치 ON");
            ("22:35-23:20", "📚 인강 2강", "study", 45, "");
            ("23:20-23:35", "✏️ 2차 문풀", "study", 15, "2강 관련 3-5문제");
            ("23:35-00:20", "📚 인강 3강", "study", 45, "피곤하면 틀어놓기 모드 허용");
            ("00:20-00:40", "✏️ 마감 문풀 + 정리", "study", 20, "핵심 3-5줄 메모, 내일 복습 포인트 표시") ]
        else [])
    ++ [ ("00:40-01:00", "자유시간 + 취침 준비", "rest", 0, "");
         ("01:00", "💤 취침", "rest", 0, "05:30 기상 리듬 유지") ]
  else
    [ ("09:00-09:30", "기상 + 씻기 + 정리", "morning", 0, "") ]
    ++ (if decide (phase >= 1) then
          [ ("09:30-10:30", "☕ 아침 복습 블록", "study", 60, "전날/한 주 누적 복습") ]
        else [])
    ++ (if decide (phase = 1) then
          [ ("10:30-12:00", "📚 인강 틀기", "study", 60, "1강만 끝나도 대성공, 모양 유지");
            ("12:00-13:00", "점심 + 휴식", "rest", 0, "");
            ("13:00-15:00", "📚 인강 or 유지", "study", 60, "한 블록만 앉아있어도 성공") ]
        else if decide (phase = 2) then
          [ ("10:30-12:00", "📚 인강 1~2강", "study", 90, "");
            ("12:00-13:00", "점심 + 휴식", "rest", 0, "");
            ("13:00-15:00", "📚 인강 이어서", "study", 90, "하루 3-4강 목표");
            ("15:30-17:30", "📖 가벼운 문풀/복습", "study", 60, "") ]
        else if decide (phase = 3) then
          [ ("10:30-12:00", "📚 오전 인강 2강", "study", 90, "");
            ("12:00-13:00", "점심", "rest", 0, "");
            ("13:00-15:00", "📚 오후 전반 인강 2강", "study", 90, "");
            ("15:00-16:00", "✏️ 문풀 1차", "study", 60, "오전 4강 관련 15-20문제");
            ("16:00-17:30", "📚 오후 후반 인강", "study", 90, "") ]
        else if decide (phase = 4) then
          [ ("09:30-10:30", "☕ 아침 복습", "study", 60, "복습용 문풀 10-15문제");
            ("10:30-12:00", "📚 오전 인강 2강", "study", 90, "");
            ("12:00-13:00", "점심 + 휴식", "rest", 0, "산책 10분");
            ("13:00-14:30", "📚 오후 인강 2강", "study", 90, "이 시점 4/6강 완료");
            ("14:30-15:30", "✏️ 문풀 1차", "study", 60, "오전 4강 관련 15-25문제");
            ("15:30-17:00", "📚 오후 후반 인강 2강", "study", 90, "6강 마무리");
            ("17:00-18:00", "저녁 + 휴식", "rest", 0, "");
            ("18:00-19:30", "✏️ 문풀 2차", "study", 90, "하루 전체 + 주간 누적 20-30문제");
            ("19:30-20:00", "📝 정리 + 내일 준비", "study", 30, "핵심 메모, 내일 복습 포인트") ]
        else [])
    ++ [ ("20:00 이후", "자유시간 + 산책", "rest", 0, "") ].

(** The category of a schedule item. *)
Definition item_category (item : schedule_item) : string := item.1.1.2.

(** The name under which a block is shown as a check box and logged:
    stripped, and without the tree marker of a sub-block. *)
Definition clean_block_name (name : string) : string :=
  let clean_name := PyStr.strip name in
  if PyStr.startswith clean_name "└" then PyStr.strip (PyStr.tail clean_name)
  else clean_name.

Definition get_checkable_blocks (phase : Z) (day_type mode : string)
  : list (string * Z * string) :=
  let schedule := get_detailed_schedule phase day_type mode in
  foldl (fun blocks item =>
           let '(time, name, category, minutes, desc) := item in
           if bool_decide (category ∈ ["study"; "exercise"]) && bool_decide (minutes >= 0)
           then blocks ++ [(clean_block_name name, minutes, desc)]
           else blocks)
        [] schedule.

Definition total_possible (checkable : list (string * Z * string)) : Z :=
  foldr Z.add 0 ((fun b => b.1.2) <$> checkable).

(** ** Grades *)

Definition get_daily_grade (hours : Q) : string :=
  if Qlt_le_dec hours 2.5 then "D-"
  else if Qlt_le_dec hours 3.1 then "A"
  else if Qlt_le_dec hours 3.9 then "B"
  else if Qlt_le_dec hours 4.6 then "C"
  else "S".

(** The dashboard's argument of [get_daily_grade]:
    [today_min / 60 if today_min else 0]. *)
Definition daily_hours (today_min : Z) : Q :=
  if decide (today_min = 0) then 0%Q else (today_min # 60)%Q.

(** [round(tm / 60, 1)] for an integer [tm] of minutes, of a magnitude
    (up to 2^49, say) at which the float quotient still tells the tenths
    apart.  [tm / 60] lies
    between the tenths [q / 10] and [(q + 1) / 10] with [q = tm // 6] and
    is rounded to the nearer one.  When [tm mod 6 = 3] it is exactly
    halfway between them; which neighbour is returned then depends on the
    binary representation of the quotient and on the integer type of the
    sum, and [ties_up tm] records that choice. *)
Definition round_hours (ties_up : Z → bool) (tm : Z) : Q :=
  let q := tm / 6 in
  let r := tm mod 6 in
  let tenths :=
    if decide (r < 3) then q
    else if decide (3 < r) then q + 1
    else if ties_up tm then q + 1 else q in
  (tenths # 10)%Q.

(** The conditional expression of the weekly summary. *)
Definition weekly_grade (th : Q) : string :=
  if Qlt_le_dec th 18 then "D-"
  else if Qlt_le_dec th 22 then "A"
  else if Qlt_le_dec th 27 then "B"
  else if Qlt_le_dec th 32 then "C"
  else "S".

(** ** Log rows and subjects *)

Record log_entry : Type := LogEntry {
  log_date : date;
  log_phase : Z;
  log_day_type : string;
  log_mode : string;
  log_block : string;
  log_done : bool;
  log_estimated_minutes : Z;
  log_energy : option Z;
  log_focus : option Z;
  log_note : string;
  log_subject : option string
}.

#[global] Instance log_entry_eq_dec : EqDecision log_entry.
Proof. solve_decision. Defined.

Record subject : Type := Subject {
  name : string;
  total_lectures : Z;
  completed_lectures : Z;
  active : bool
}.

#[global] Instance subject_eq_dec : EqDecision subject.
Proof. solve_decision. Defined.

(** [df["estimated_minutes"].sum()].  The column is int64 and its sum
    wraps around; the integer sum taken here is the one the code returns
    as long as it lies within int64. *)
Definition sum_minutes (rows : list log_entry) : Z :=
  foldr Z.add 0 (log_estimated_minutes <$> rows).

(** [log_df[log_df["date"] == d]] *)
Definition rows_of_date (d : date) (log_df : list log_entry) : list log_entry :=
  filter (λ r, log_date r = d) log_df.

(** [wd]: the rows of the Monday-to-Sunday week that holds [week_ref]. *)
Definition week_rows (log_df : list log_entry) (week_ref : date) : list log_entry :=
  let '(ws, we) := get_week_range week_ref in
  filter (λ r, ws <= log_date r ∧ log_date r <= we) log_df.

(** The weekly summary of the analysis tab: hours shown and grade, or
    nothing when the log or the chosen week has no row. *)
Definition weekly_summary (ties_up : Z → bool) (log_df : list log_entry)
    (week_ref : date) : option (Q * string) :=
  if decide (log_df = []) then None
  else
    let wd := week_rows log_df week_ref in
    if decide (wd = []) then None
    else
      let tm := sum_minutes wd in
      let th := round_hours ties_up tm in
      Some (th, weekly_grade th).

(** ** Lecture credits and subject progress *)

Definition get_lecture_increment (block_name : string) : Z :=
  let name := block_name in
  if PyStr.contains "인강 3강" name then 1
  else if PyStr.contains "인강 2강" name then
    (if PyStr.contains "오전 인강 2강" name
        || PyStr.contains "오후 인강 2강" name
        || PyStr.contains "후반 인강 2강" name
     then 2 else 1)
  else if PyStr.contains "인강 1강" name
          || PyStr.contains "인강 1~2강" name
          || PyStr.contains "인강 이어서" name
  then 1
  else 0.

Definition lecture_credits_from_rows (rows : list log_entry) : Z :=
  if decide (rows = []) then 0
  else foldr Z.add 0
         (get_lecture_increment <$> (log_block <$> filter (λ r, log_done r = true) rows)).

(** [log_df.groupby("subject")]: one group per subject value present,
    rows without a subject dropped.  pandas yields the groups in key
    order; the groups have distinct keys, so the dictionary built from
    them does not depend on that order. *)
Definition groupby_subject (log_df : list log_entry)
  : list (string * list log_entry) :=
  (λ subj, (subj, filter (λ r, log_subject r = Some subj) log_df))
    <$> remove_dups (omap log_subject log_df).

Definition compute_subject_progress (log_df : list log_entry) : gmap string Z :=
  if decide (log_df = []) then ∅
  else
    foldl (λ progress '(subj, rows),
             if decide (subj = "") then progress
             else <[subj := lecture_credits_from_rows rows]> progress)
          ∅ (groupby_subject log_df).

(** The body of the loop of [sync_subjects_with_log] for one subject. *)
Definition sync_subject (progress : gmap string Z) (s : subject) : subject :=
  match progress !! name s with
  | Some p =>
      let new_val := Z.max p (completed_lectures s) in
      if decide (new_val ≠ completed_lectures s)
      then {| name := name s; total_lectures := total_lectures s;
              completed_lectures := new_val; active := active s |}
      else s
  | None => s
  end.

Definition sync_subjects_with_log (log_df : list log_entry)
    (subjects : list subject) : list subject :=
  if decide (subjects = []) then subjects
  else
    let progress := compute_subject_progress log_df in
    sync_subject progress <$> subjects.

(** Whether [sync_subjects_with_log] writes the subjects back to the
    store (its [changed] flag). *)
Definition sync_changed (log_df : list log_entry) (subjects : list subject) : bool :=
  bool_decide (sync_subjects_with_log log_df subjects ≠ subjects).

(** ** Attendance streak *)

(** [sorted(log_df["date"].unique(), reverse=True)] *)
Definition unique_dates (log_df : list log_entry) : list date :=
  if decide (log_df = []) then []
  else merge_sort Z.ge (remove_dups (log_date <$> log_df)).

(** The streak loop; [continue] goes on with the remaining dates and
    [break] returns the count reached. *)
Fixpoint streak_loop (today : date) (log_df : list log_entry)
    (dates : list date) (streak : Z) : Z :=
  match dates with
  | [] => streak
  | d :: dates' =>
      if decide (d > today) then streak_loop today log_df dates' streak
      else
        let day_rows := rows_of_date d log_df in
        if decide (day_rows = []) then streak
        else if existsb (λ r, bool_decide (log_done r = true)
                               && bool_decide (log_block r ≠ "OFF")) day_rows
        then streak_loop today log_df dates' (streak + 1)
        else streak
  end.

Definition streak (today : date) (log_df : list log_entry) : Z :=
  streak_loop today log_df (unique_dates log_df) 0.

(** ** Check-in save handler *)

(** A Python [dict] whose iteration order matters: keys in order of
    first insertion, [d[k] = v] overwriting in place. *)
Fixpoint dict_set {V : Type} (d : list (string * V)) (k : string) (v : V)
  : list (string * V) :=
  match d with
  | [] => [(k, v)]
  | (k', v') :: d' =>
      if decide (k' = k) then (k, v) :: d' else (k', v') :: dict_set d' k v
  end.

Fixpoint dict_get {V : Type} (d : list (string * V)) (k : string) : option V :=
  match d with
  | [] => None
  | (k', v') :: d' => if decide (k' = k) then Some v' else dict_get d' k
  end.

(** What the operator has entered in the routine tab when the save button
    is pressed.  [checked] is the state of the check box of each block,
    by cleaned block name (the widget key). *)
Record routine_inputs : Type := RoutineInputs {
  selected_date : date;
  effective_phase : Z;
  day_type : string;
  mode : string;
  checked : string → bool;
  energy : Z;
  focus : Z;
  note : string;
  selected_subject : string;
  subject_options : list string
}.

(** The loop over the schedule that draws the check boxes: it fills
    [checkbox_states] (cleaned name to state, checkable blocks only)
    and [block_meta] (cleaned name to minutes and category, all blocks). *)
Definition routine_widgets (checked : string → bool) (schedule : list schedule_item)
  : list (string * bool) * list (string * (Z * string)) :=
  foldl (λ '(checkbox_states, block_meta) item,
           let '(time, name, category, minutes, desc) := item in
           let clean_name := clean_block_name name in
           let block_meta := dict_set block_meta clean_name (minutes, category) in
           if bool_decide (category ∈ ["study"; "exercise"])
           then (dict_set checkbox_states clean_name (checked clean_name), block_meta)
           else (checkbox_states, block_meta))
        ([], []) schedule.

Definition new_rows (i : routine_inputs) : list log_entry :=
  if decide (mode i = "off") then
    [ {| log_date := selected_date i; log_phase := effective_phase i;
         log_day_type := day_type i; log_mode := mode i;
         log_block := "OFF"; log_done := true; log_estimated_minutes := 0;
         log_energy := Some (energy i); log_focus := Some (focus i);
         log_note := note i; log_subject := None |} ]
  else
    let '(checkbox_states, block_meta) :=
      routine_widgets (checked i)
        (get_detailed_schedule (effective_phase i) (day_type i) (mode i)) in
    (λ '(block, done),
       let meta := dict_get block_meta block in
       let est_min := from_option fst 0 meta in
       let subj_val :=
         if bool_decide (snd <$> meta = Some "study")
            && bool_decide (subject_options i ≠ [])
         then Some (selected_subject i) else None in
       {| log_date := selected_date i; log_phase := effective_phase i;
          log_day_type := day_type i; log_mode := mode i;
          log_block := block; log_done := done;
          log_estimated_minutes := if done then est_min else 0;
          log_energy := Some (energy i); log_focus := Some (focus i);
          log_note := note i; log_subject := subj_val |})
      <$> checkbox_states.

(** The session state the handler reads and replaces. *)
Record session : Type := Session {
  log_df : list log_entry;
  subjects : list subject
}.

(** The body of the save button: drop the rows of the selected date,
    append the new rows, resynchronise the subjects.  The log it returns
    is the one written to the store. *)
Definition save_button (i : routine_inputs) (st : session) : session :=
  let log_df := filter (λ r, log_date r ≠ selected_date i) (log_df st) in
  let rows := new_rows i in
  let log_df := if decide (rows ≠ []) then log_df ++ rows else log_df in
  {| log_df := log_df;
     subjects := sync_subjects_with_log log_df (subjects st) |}.

(** ** Specification-side notions *)

(** [p] occurs in [s] as a contiguous substring. *)
Definition occurs_in (p s : string) : Prop :=
  ∃ pre post, s = pre +:+ p +:+ post.

(** The lecture credits the log holds for the subject [nm]: the credits
    of the blocks of its done rows. *)
Definition subject_credits (log_df : list log_entry) (nm : string) : Z :=
  foldr Z.add 0
    (get_lecture_increment
       <$> (log_block
              <$> filter (λ r, log_done r = true)
                    (filter (λ r, log_subject r = Some nm) log_df))).

(** [nm] is a subject the log has rows for. *)
Definition logged_subject (log_df : list log_entry) (nm : string) : Prop :=
  nm ≠ "" ∧ ∃ r, r ∈ log_df ∧ log_subject r = Some nm.

(** ** Sample data *)

(** A log row of the given date, block, state, minutes and subject. *)
Definition sample_row (d : date) (block : string) (done : bool) (minutes : Z)
    (subj : option string) : log_entry :=
  {| log_date := d; log_phase := 4; log_day_type := get_day_type d;
     log_mode := "normal"; log_block := block; log_done := done;
     log_estimated_minutes := minutes; log_energy := Some 3;
     log_focus := Some 3; log_note := ""; log_subject := subj |}.

(** A week (ordinals 8 to 14, Monday to Sunday) whose rows add up to
    1078 minutes: 154 minutes a day. *)
Definition week_of_1078_minutes : list log_entry :=
  (λ d, sample_row d "📚 인강 1강" true 154 None) <$> [8; 9; 10; 11; 12; 13; 14].

(** A log with done lecture rows on the days 10, 9 and 8, no row at all
    on day 7, and a done lecture row on day 6. *)
Definition log_with_gap : list log_entry :=
  (λ d, sample_row d "📚 인강 1강" true 45 (Some "민법")) <$> [10; 9; 8; 6].

(** A weekday check-in in phase 3 with two study blocks ticked. *)
Definition sample_inputs : routine_inputs :=
  {| selected_date := 10; effective_phase := 3; day_type := "weekday";
     mode := "normal";
     checked := λ block, bool_decide (block ∈ ["📚 인강 1강"; "✏️ 1차 문풀"]);
     energy := 3; focus := 3; note := "";
     selected_subject := "민법"; subject_options := ["민법"] |}.

(** ** Further definitions *)

(** A value of the int64 columns of the log.  The rows of a data frame
    hold such values, and their [sum()] is their true sum whenever that
    sum is such a value. *)
Definition in_int64 (z : Z) : Prop := - 2 ^ 63 <= z < 2 ^ 63.

#[global] Instance in_int64_dec (z : Z) : Decision (in_int64 z).
Proof. unfold in_int64. apply _. Defined.

(** The name and the minutes of a schedule item. *)
Definition item_name (item : schedule_item) : string := item.1.1.1.2.
Definition item_minutes (item : schedule_item) : Z := item.1.2.

(** The schedule items that get a check box. *)
Definition checkable_items (phase : Z) (day_type mode : string)
  : list schedule_item :=
  filter (λ item, item_category item ∈ ["study"; "exercise"])
    (get_detailed_schedule phase day_type mode).

(** The cleaned name of a schedule item, the key of its check box. *)
Definition item_key (item : schedule_item) : string :=
  clean_block_name (item_name item).

(** The log row that the inputs [i] give for a checkable schedule item. *)
Definition row_of_item (i : routine_inputs) (item : schedule_item) : log_entry :=
  let done := checked i (item_key item) in
  {| log_date := selected_date i; log_phase := effective_phase i;
     log_day_type := day_type i; log_mode := mode i;
     log_block := item_key item; log_done := done;
     log_estimated_minutes := if done then item_minutes item else 0;
     log_energy := Some (energy i); log_focus := Some (focus i);
     log_note := note i;
     log_subject :=
       if bool_decide (item_category item = "study")
          && bool_decide (subject_options i ≠ [])
       then Some (selected_subject i) else None |}.

(** The row of an OFF day. *)
Definition off_row (i : routine_inputs) : log_entry :=
  {| log_date := selected_date i; log_phase := effective_phase i;
     log_day_type := day_type i; log_mode := mode i;
     log_block := "OFF"; log_done := true; log_estimated_minutes := 0;
     log_energy := Some (energy i); log_focus := Some (focus i);
     log_note := note i; log_subject := None |}.

(** [get_logged_day_context]: phase, day type and mode of the first row
    logged for the date, if any.  The rows are typed, so the [int]
    conversion of the source cannot fail. *)
Definition get_logged_day_context (log_df : list log_entry) (target_date : date)
  : option (Z * string * string) :=
  if decide (log_df = []) then None
  else
    match filter (λ r, log_date r = target_date) log_df with
    | [] => None
    | row :: _ => Some (log_phase row, log_day_type row, log_mode row)
    end.

(** Whether the log has a done row other than the OFF row for the date:
    the test of the streak loop. *)
Definition attended (log_df : list log_entry) (d : date) : bool :=
  existsb (λ r, bool_decide (log_done r = true)
                && bool_decide (log_block r ≠ "OFF"))
    (rows_of_date d log_df).

(** The length of the longest prefix of [dates] on which [P] holds. *)
Fixpoint leading_run (P : date → bool) (dates : list date) : Z :=
  match dates with
  | [] => 0
  | d :: dates' => if P d then 1 + leading_run P dates' else 0
  end.

(** ** Badges *)

(** [get_badges].  The product with the float 0.5 is taken in [Q]: it
    is the float product as long as the total is below 2^53 in
    magnitude, where the conversion of the integer to a float is exact. *)
Definition get_badges (log_df : list log_entry) (subjects : list subject)
    (streak : Z) : list (string * string) :=
  let badges :=
    if decide (streak >= 30) then [("🏆 30일 연속", "gold")]
    else if decide (streak >= 14) then [("🥈 14일 연속", "silver")]
    else if decide (streak >= 7) then [("🥉 7일 연속", "bronze")]
    else [] in
  foldl (λ badges s,
           if decide (completed_lectures s >= total_lectures s)
           then badges ++ [("📚 " +:+ name s +:+ " 완주!", "gold")]
           else if Qle_bool (inject_Z (total_lectures s) * 0.5)
                     (inject_Z (completed_lectures s))
           then badges ++ [("📖 " +:+ name s +:+ " 50%", "silver")]
           else badges)
        badges subjects.

(** ** Heatmap *)

Definition heatmap_color (m : Z) : string :=
  if decide (m >= 240) then "#00d4aa"
  else if decide (m >= 120) then "#00a884"
  else if decide (m >= 30) then "#007a5e"
  else "#004d3d".

(** The dictionary [daily_data] of [render_heatmap]: the minutes of each
    date from [start] to [today] that has rows. *)
Definition heatmap_daily_data (today start : date) (log_df : list log_entry)
  : gmap Z Z :=
  if decide (log_df = []) then ∅
  else
    foldl (λ daily_data d,
             let rows := rows_of_date d log_df in
             if decide (rows ≠ []) then <[d := sum_minutes rows]> daily_data
             else daily_data)
          ∅ (seqZ start (today - start + 1)).

(** [render_heatmap], with [today] for [date.today()]: the cells drawn,
    column by column, each with its date (the cell's title) and colour.
    [st.columns] accepts a positive number of columns only.  The dates
    are computed as ordinals: the source does the same as long as the
    start date is a date, and a pandas timestamp when it walks the days
    of a log that is not empty (ordinals 612412 to 825914, 1677-09-22 to
    2262-04-11); the day sums are those of [sum_minutes]. *)
Definition render_heatmap (today : date) (log_df : list log_entry) (weeks : Z)
  : option (list (list (date * string))) :=
  let start := today - (7 * weeks + weekday today) in
  let daily_data := heatmap_daily_data today start log_df in
  if decide (weeks <= 0) then None
  else
    Some ((λ w,
             let ws := start + 7 * w in
             (λ d,
                let cd := ws + d in
                let c :=
                  if decide (cd > today) then "#1a1a1a"
                  else match daily_data !! cd with
                       | Some m => heatmap_color m
                       | None => "#2d3436"
                       end in
                (cd, c)) <$> seqZ 0 7)
            <$> seqZ 0 weeks).

(** ** Sidebar: the effective phase *)

Definition PHASE_LABELS : gmap Z string :=
  list_to_map [ (1, "1단계 – 출석 + 공부 모양"); (2, "2단계 – 0.5~1회 감각");
                (3, "3단계 – 공부시간 증가"); (4, "4단계 – 완성형") ].

(** [list(PHASE_LABELS.keys())] *)
Definition phase_options : list Z := [1; 2; 3; 4].

(** [l[i]] on a Python list: negative indices count from the end, an
    index out of range raises. *)
Definition py_index {A : Type} (l : list A) (i : Z) : option A :=
  let n := Z.of_nat (length l) in
  if decide (0 <= i) then l !! Z.to_nat i
  else if decide (- n <= i) then l !! Z.to_nat (n + i)
  else None.

(** The part of the sidebar that settles the effective phase and prints
    its header; [None] stands for a raised [KeyError], [IndexError] or
    [ValueError].  [saved_ctx] is the logged context of the selected
    date, [use_saved_ctx] its check box, [selected_week] the week number
    of the selected date and [selected_phase] the value of the phase
    select box, drawn in the automatic mode only. *)
Definition sidebar_effective_phase (saved_ctx : option (Z * string * string))
    (use_saved_ctx auto_phase : bool) (manual_phase selected_week : Z)
    (selected_phase : Z) : option (Z * string) :=
  let selected_phase_auto := get_phase_by_week selected_week in
  effective_phase ←
    match saved_ctx, use_saved_ctx with
    | Some (phase, _, _), true => _ ← PHASE_LABELS !! phase; Some phase
    | _, _ =>
        if auto_phase then
          _ ← list_find (λ x, x = selected_phase_auto) phase_options;
          Some selected_phase
        else _ ← PHASE_LABELS !! manual_phase; Some manual_phase
    end;
  phase_emoji ← py_index [""; "🟢"; "🟡"; "🟠"; "🔴"] effective_phase;
  label ← PHASE_LABELS !! effective_phase;
  Some (effective_phase, "**" +:+ phase_emoji +:+ " " +:+ label +:+ "**").

(** A log with done lecture rows on 2024-04-24 (ordinal 739000, a
    Wednesday) and on the Saturday and Friday before. *)
Definition recent_log : list log_entry :=
  (λ d, sample_row d "📚 인강 1강" true 45 (Some "민법"))
    <$> [739000; 738996; 738995].

(** Subjects half done, done, with nothing to do, and barely begun. *)
Definition sample_subjects : list subject :=
  [ Subject "민법" 220 110 true; Subject "특허법" 100 100 true;
    Subject "상표법" 0 0 true; Subject "디자인보호법" 80 10 true ].

(** * Properties *)

(** ** Strings *)

Lemma append_cons (a : ascii) (s t : string) :
  String a s +:+ t = String a (s +:+ t).
Proof. reflexivity. Qed.

Lemma startswith_spec (s p : string) :
  PyStr.startswith s p = true ↔ ∃ post, s = p +:+ post.
Proof.
  revert s. induction p as [|a p IH]; intros s; simpl.
  - split; [intros _; exists s; reflexivity | done].
  - destruct s as [|b s].
    + split; [done | intros [post H]; discriminate H].
    + rewrite andb_true_iff, bool_decide_eq_true, IH. split.
      * intros [-> [post ->]]. exists post. reflexivity.
      * intros [post H]. rewrite append_cons in H.
        injection H as -> ->. eauto.
Qed.

Lemma contains_spec (p s : string) :
  PyStr.contains p s = true ↔ occurs_in p s.
Proof.
  unfold occurs_in. induction s as [|b s IH].
  - simpl. rewrite orb_false_r, startswith_spec. split.
    + intros [post H]. exists "", post. exact H.
    + intros [[|a pre] [post H]]; [exists post; exact H | discriminate H].
  - cbn [PyStr.contains]. rewrite orb_true_iff, startswith_spec, IH. split.
    + intros [[post H] | (pre & post & H)].
      * exists "", post. exact H.
      * exists (String b pre), post. by rewrite append_cons, H.
    + intros ([|a pre] & post & H).
      * left. exists post. exact H.
      * right. rewrite append_cons in H. injection H as -> ->. eauto.
Qed.

(** [strip] removes Unicode white space at both ends, [tail] a whole
    character, and the tree marker of a sub-block goes with them. *)
Example strip_examples :
  PyStr.strip "  a b 	" = "a b"
  ∧ PyStr.strip "　x " = "x"
  ∧ PyStr.tail "└ 복습" = " 복습"
  ∧ clean_block_name "   └ 복습용 문풀" = "복습용 문풀"
  ∧ clean_block_name "🚿 샤워" = "🚿 샤워".
Proof. by vm_compute. Qed.

(** ** Lecture credits *)

Ltac case_contains :=
  repeat match goal with
    | |- context [PyStr.contains ?p ?s] =>
        let H := fresh "Hc" in
        pose proof (contains_spec p s) as H;
        destruct (PyStr.contains p s); cbn [orb] in *
    end.

(** C3. The credit of a block name follows the substring rules in order:
    a name in which "인강 3강" occurs gives 1; otherwise a name in which
    "인강 2강" occurs gives 2 exactly when one of the double-session
    labels "오전 인강 2강", "오후 인강 2강", "후반 인강 2강" occurs in it, and
    1 if none does; otherwise a name in which "인강 1강", "인강 1~2강" or
    "인강 이어서" occurs gives 1; every other name gives 0. *)
Theorem get_lecture_increment_rules (block_name : string) :
  let has := λ p, occurs_in p block_name in
  let double := has "오전 인강 2강" ∨ has "오후 인강 2강" ∨ has "후반 인강 2강" in
  let credit := get_lecture_increment block_name in
  (has "인강 3강" → credit = 1)
  ∧ (¬ has "인강 3강" → has "인강 2강" →
     (credit = 2 ↔ double) ∧ (credit = 1 ↔ ¬ double))
  ∧ (¬ has "인강 3강" → ¬ has "인강 2강" →
     has "인강 1강" ∨ has "인강 1~2강" ∨ has "인강 이어서" → credit = 1)
  ∧ (¬ has "인강 3강" → ¬ has "인강 2강" → ¬ has "인강 1강" →
     ¬ has "인강 1~2강" → ¬ has "인강 이어서" → credit = 0).
Proof.
  intros has double credit. subst has double credit.
  unfold get_lecture_increment. cbv zeta.
  case_contains; intuition (discriminate || lia).
Qed.

(** ** Week number *)

(** C8. [get_week_number start_date target_date] is
    [max 1 (floor ((target_date - start_date) / 7) + 1)], where the floor
    [q] is the integer with [7 q <= target_date - start_date < 7 q + 7];
    it is at least 1 for all dates, also when the target date precedes
    the start date. *)
Theorem get_week_number_spec (start_date target_date : date) :
  ∃ q : Z,
    7 * q <= target_date - start_date < 7 * q + 7
    ∧ get_week_number start_date target_date = Z.max 1 (q + 1)
    ∧ 1 <= get_week_number start_date target_date.
Proof.
  exists ((target_date - start_date) / 7). unfold get_week_number.
  pose proof (Z.div_mod (target_date - start_date) 7 ltac:(lia)).
  pose proof (Z.mod_pos_bound (target_date - start_date) 7 ltac:(lia)).
  repeat split; lia.
Qed.

(** ** Grades *)

Ltac case_Qlt :=
  repeat match goal with
    | |- context [Qlt_le_dec ?x ?y] => destruct (Qlt_le_dec x y)
    end.

Ltac Qorder :=
  repeat match goal with
    | H : (_ < _)%Q |- _ => unfold Qlt in H; simpl in H
    | H : (_ <= _)%Q |- _ => unfold Qle in H; simpl in H
    | H : _ ∧ _ |- _ => destruct H
    end;
  unfold Qlt, Qle; simpl; try split; try lia; try discriminate.

Lemma daily_grade_intervals (hours : Q) :
  (get_daily_grade hours = "D-" ↔ (hours < 2.5)%Q)
  ∧ (get_daily_grade hours = "A" ↔ (2.5 <= hours ∧ hours < 3.1)%Q)
  ∧ (get_daily_grade hours = "B" ↔ (3.1 <= hours ∧ hours < 3.9)%Q)
  ∧ (get_daily_grade hours = "C" ↔ (3.9 <= hours ∧ hours < 4.6)%Q)
  ∧ (get_daily_grade hours = "S" ↔ (4.6 <= hours)%Q).
Proof.
  unfold get_daily_grade.
  repeat match goal with |- _ ∧ _ => split end.
  all: case_Qlt; split; intros; Qorder.
Qed.

(** C7. The daily grade of [hours] is "D-" below 2.5, "A" from 2.5 to
    below 3.1, "B" from 3.1 to below 3.9, "C" from 3.9 to below 4.6 and
    "S" from 4.6 on, in this label order; so 2.4 gives "D-", 2.5 gives
    "A", 3.9 gives "C" and 5.0 gives "S".  It holds for every [hours],
    the negative ones included. *)
Theorem get_daily_grade_spec (hours : Q) :
  (get_daily_grade hours = "D-" ↔ (hours < 2.5)%Q)
  ∧ (get_daily_grade hours = "A" ↔ (2.5 <= hours ∧ hours < 3.1)%Q)
  ∧ (get_daily_grade hours = "B" ↔ (3.1 <= hours ∧ hours < 3.9)%Q)
  ∧ (get_daily_grade hours = "C" ↔ (3.9 <= hours ∧ hours < 4.6)%Q)
  ∧ (get_daily_grade hours = "S" ↔ (4.6 <= hours)%Q)
  ∧ get_daily_grade 2.4 = "D-"
  ∧ get_daily_grade 2.5 = "A"
  ∧ get_daily_grade 3.9 = "C"
  ∧ get_daily_grade 5.0 = "S".
Proof.
  pose proof (daily_grade_intervals hours) as (HD & HA & HB & HC & HS).
  repeat match goal with |- _ ∧ _ => split end;
    try reflexivity; assumption.
Qed.

(** X23. On the dashboard the hours are whole minutes over 60, and the grade
    changes at 150, 186, 234 and 276 minutes. *)
Lemma daily_grade_of_minutes (today_min : Z) :
  let grade := get_daily_grade (daily_hours today_min) in
  (grade = "D-" ↔ today_min < 150)
  ∧ (grade = "A" ↔ 150 <= today_min < 186)
  ∧ (grade = "B" ↔ 186 <= today_min < 234)
  ∧ (grade = "C" ↔ 234 <= today_min < 276)
  ∧ (grade = "S" ↔ 276 <= today_min).
Proof.
  intros grade. subst grade.
  pose proof (daily_grade_intervals (daily_hours today_min))
    as (HD & HA & HB & HC & HS).
  rewrite HD, HA, HB, HC, HS. unfold daily_hours.
  case_decide; [subst |]; unfold Qlt, Qle; simpl; repeat split; lia.
Qed.

Lemma weekly_grade_thresholds (th : Q) :
  (weekly_grade th = "D-" ↔ (th < 18)%Q)
  ∧ (weekly_grade th = "A" ↔ (18 <= th ∧ th < 22)%Q)
  ∧ (weekly_grade th = "B" ↔ (22 <= th ∧ th < 27)%Q)
  ∧ (weekly_grade th = "C" ↔ (27 <= th ∧ th < 32)%Q)
  ∧ (weekly_grade th = "S" ↔ (32 <= th)%Q).
Proof.
  unfold weekly_grade.
  repeat match goal with |- _ ∧ _ => split end.
  all: case_Qlt; split; intros; Qorder.
Qed.

Lemma round_hours_nearest (ties_up : Z → bool) (tm : Z) :
  ∃ t : Z, round_hours ties_up tm = (t # 10)%Q ∧ -3 <= 6 * t - tm <= 3.
Proof.
  unfold round_hours.
  pose proof (Z.div_mod tm 6 ltac:(lia)).
  pose proof (Z.mod_pos_bound tm 6 ltac:(lia)).
  repeat case_decide; [eexists; split; [reflexivity | lia] .. |].
  destruct (ties_up tm); eexists; (split; [reflexivity | lia]).
Qed.

(** C6, the claim as stated fails.  A week of 1078 minutes has 17.97
    exact hours, below 18, and yet its grade is "A": the hours graded
    are the rounded 18.0. *)
Lemma weekly_grade_exact_hours_fails :
  sum_minutes (week_rows week_of_1078_minutes 10) = 1078
  ∧ (sum_minutes (week_rows week_of_1078_minutes 10) # 60 < 18)%Q
  ∧ weekly_summary (λ _, true) week_of_1078_minutes 10 = Some (18.0%Q, "A")
  ∧ weekly_summary (λ _, false) week_of_1078_minutes 10 = Some (18.0%Q, "A").
Proof. repeat split. Qed.

(** C6, amended.  The weekly grade is "D-" for th < 18, "A" for
    18 <= th < 22, "B" for 22 <= th < 27, "C" for 27 <= th < 32 and "S"
    for th >= 32, where th is the hours shown: the sum tm of the week's
    estimated minutes divided by 60 and rounded to one decimal, a tenth
    t/10 with |t/10 - tm/60| <= 1/20.  Sums of 1080, 1320 and 1920
    minutes give "A", "B" and "S".  This is for a reference date whose
    week lies within the calendar (ordinals 1 to 3652053) and a week
    whose minutes add up to at most 2^49 in magnitude, where the int64
    sum does not wrap and the float quotient still has its tenths. *)
Theorem weekly_grade_of_rounded_hours (ties_up : Z → bool)
    (log_df : list log_entry) (week_ref : date) (th : Q) (grade : string) :
  1 <= week_ref <= 3652053 →
  - 2 ^ 49 <= sum_minutes (week_rows log_df week_ref) <= 2 ^ 49 →
  weekly_summary ties_up log_df week_ref = Some (th, grade) →
  let tm := sum_minutes (week_rows log_df week_ref) in
  th = round_hours ties_up tm
  ∧ (∃ t : Z, th = (t # 10)%Q ∧ -3 <= 6 * t - tm <= 3)
  ∧ (grade = "D-" ↔ (th < 18)%Q)
  ∧ (grade = "A" ↔ (18 <= th ∧ th < 22)%Q)
  ∧ (grade = "B" ↔ (22 <= th ∧ th < 27)%Q)
  ∧ (grade = "C" ↔ (27 <= th ∧ th < 32)%Q)
  ∧ (grade = "S" ↔ (32 <= th)%Q)
  ∧ weekly_grade (round_hours ties_up 1080) = "A"
  ∧ weekly_grade (round_hours ties_up 1320) = "B"
  ∧ weekly_grade (round_hours ties_up 1920) = "S".
Proof.
  intros Hweek Hminutes Hsum tm. unfold weekly_summary in Hsum.
  repeat case_decide; try discriminate.
  injection Hsum as <- <-. fold tm.
  split; [reflexivity |]. split; [apply round_hours_nearest |].
  pose proof (weekly_grade_thresholds (round_hours ties_up tm)) as (?&?&?&?&?).
  repeat split; tauto.
Qed.

Lemma weekly_grade_of_rounded_hours_witness :
  1 <= 10 <= 3652053
  ∧ - 2 ^ 49 <= sum_minutes (week_rows week_of_1078_minutes 10) <= 2 ^ 49
  ∧ weekly_summary (λ _, true) week_of_1078_minutes 10 = Some (18.0%Q, "A")
  ∧ (18.0%Q = round_hours (λ _, true)
                (sum_minutes (week_rows week_of_1078_minutes 10))
     ∧ ("A" = "A" ↔ (18 <= 18.0 ∧ 18.0 < 22)%Q)).
Proof.
  assert (1 <= 10 <= 3652053) as Hweek by lia.
  assert (- 2 ^ 49 <= sum_minutes (week_rows week_of_1078_minutes 10) <= 2 ^ 49)
    as Hminutes by (by vm_compute).
  split; [exact Hweek |]. split; [exact Hminutes |]. split; [reflexivity |].
  pose proof (weekly_grade_of_rounded_hours (λ _, true) week_of_1078_minutes 10
                18.0%Q "A" Hweek Hminutes eq_refl) as (H1 & _ & _ & H2 & _).
  exact (conj H1 H2).
Defined.

(** ** Schedule generator *)

(** Outside the off mode the schedule depends on the mode not at all and
    on the day type only through its being "weekday" or not. *)
Lemma get_detailed_schedule_template (phase : Z) (day_type mode : string) :
  mode ≠ "off" →
  get_detailed_schedule phase day_type mode
  = get_detailed_schedule phase
      (if decide (day_type = "weekday") then "weekday" else "sat") "normal".
Proof.
  intros Hmode. unfold get_detailed_schedule.
  rewrite (decide_False (P := mode = "off")) by done.
  rewrite (decide_False (P := "normal" = "off")) by done.
  destruct (decide (day_type = "weekday")) as [->|Hday]; [done |].
  by rewrite (decide_False (P := "sat" = "weekday")) by done.
Qed.

Lemma get_checkable_blocks_template (phase : Z) (day_type mode : string) :
  mode ≠ "off" →
  get_checkable_blocks phase day_type mode
  = get_checkable_blocks phase
      (if decide (day_type = "weekday") then "weekday" else "sat") "normal".
Proof.
  intros Hmode. unfold get_checkable_blocks.
  by rewrite get_detailed_schedule_template.
Qed.

(** C10. On a weekday outside the off mode, a phase of 0 or less still
    gives a non-empty schedule, made of framing blocks only: none of its
    blocks is a study or exercise block, the list of checkable blocks is
    empty and the possible total of study minutes is 0. *)
Theorem nonpositive_phase_weekday (phase : Z) (mode : string) :
  phase <= 0 →
  mode ≠ "off" →
  get_detailed_schedule phase "weekday" mode ≠ []
  ∧ Forall (λ item, item_category item ∈ ["morning"; "work"; "rest"])
      (get_detailed_schedule phase "weekday" mode)
  ∧ get_checkable_blocks phase "weekday" mode = []
  ∧ total_possible (get_checkable_blocks phase "weekday" mode) = 0.
Proof.
  intros Hphase Hmode.
  assert (get_detailed_schedule phase "weekday" mode
          = get_detailed_schedule 0 "weekday" "normal") as Hsched.
  { rewrite get_detailed_schedule_template by done.
    unfold get_detailed_schedule.
    rewrite !(decide_False (P := phase >= _)) by lia.
    by rewrite !(decide_False (P := phase = _)) by lia. }
  unfold get_checkable_blocks. rewrite Hsched.
  split; [done |]. split; [| done].
  by apply (bool_decide_unpack _).
Qed.

Lemma nonpositive_phase_weekday_witness :
  -2 <= 0 ∧ "low" ≠ "off"
  ∧ get_checkable_blocks (-2) "weekday" "low" = []
  ∧ total_possible (get_checkable_blocks (-2) "weekday" "low") = 0.
Proof.
  split; [lia |]. split; [discriminate |].
  apply (nonpositive_phase_weekday (-2) "low"); [lia | discriminate].
Defined.

(** C4. Outside the off mode, for every day type, the schedule of each
    phase 1 to 4 is non-empty and the total estimated minutes of the
    checkable blocks grow strictly with the phase. *)
Theorem schedule_nonempty_minutes_increasing (day_type mode : string) :
  mode ≠ "off" →
  let minutes := λ phase,
    total_possible (get_checkable_blocks phase day_type mode) in
  Forall (λ phase, get_detailed_schedule phase day_type mode ≠ []) [1; 2; 3; 4]
  ∧ minutes 1 < minutes 2
  ∧ minutes 2 < minutes 3
  ∧ minutes 3 < minutes 4.
Proof.
  intros Hmode minutes. subst minutes. cbv beta.
  rewrite !(get_checkable_blocks_template _ day_type mode) by done.
  repeat setoid_rewrite (get_detailed_schedule_template _ day_type mode Hmode).
  destruct (decide (day_type = "weekday")).
  - split; [by repeat constructor | by vm_compute].
  - split; [by repeat constructor | by vm_compute].
Qed.

Lemma schedule_nonempty_minutes_increasing_witness :
  "normal" ≠ "off"
  ∧ total_possible (get_checkable_blocks 1 "sun" "normal")
    < total_possible (get_checkable_blocks 2 "sun" "normal")
  ∧ total_possible (get_checkable_blocks 2 "sun" "normal")
    < total_possible (get_checkable_blocks 3 "sun" "normal")
  ∧ total_possible (get_checkable_blocks 3 "sun" "normal")
    < total_possible (get_checkable_blocks 4 "sun" "normal").
Proof.
  split; [discriminate |].
  apply (schedule_nonempty_minutes_increasing "sun" "normal"). discriminate.
Defined.

(** The totals themselves: 45, 145, 190, 250 minutes on a weekday and
    180, 300, 390, 570 minutes on a weekend day. *)
Lemma total_possible_values :
  (λ phase, total_possible (get_checkable_blocks phase "weekday" "normal"))
    <$> [1; 2; 3; 4] = [45; 145; 190; 250]
  ∧ (λ phase, total_possible (get_checkable_blocks phase "sat" "normal"))
      <$> [1; 2; 3; 4] = [180; 300; 390; 570].
Proof. by vm_compute. Qed.

(** ** Check-in save handler *)

Lemma filter_all {A : Type} (P : A → Prop) `{∀ x, Decision (P x)} (l : list A) :
  Forall P l → filter P l = l.
Proof.
  induction 1 as [|x l Hx _ IH]; [done |].
  by rewrite filter_cons_True, IH.
Qed.

Lemma filter_none {A : Type} (P : A → Prop) `{∀ x, Decision (P x)} (l : list A) :
  Forall (λ x, ¬ P x) l → filter P l = [].
Proof.
  induction 1 as [|x l Hx _ IH]; [done |].
  by rewrite filter_cons_False.
Qed.

Lemma filter_filter_same {A : Type} (P : A → Prop) `{∀ x, Decision (P x)}
    (l : list A) :
  filter P (filter P l) = filter P l.
Proof.
  apply filter_all, Forall_forall. intros x Hx%list_elem_of_filter. tauto.
Qed.

(** Every row the handler builds carries the selected date. *)
Lemma new_rows_date (i : routine_inputs) :
  Forall (λ r, log_date r = selected_date i) (new_rows i).
Proof.
  unfold new_rows. case_decide.
  - by repeat constructor.
  - destruct (routine_widgets _ _) as [checkbox_states block_meta].
    apply Forall_fmap, Forall_forall. by intros [block done] _.
Qed.

(** After a save the rows of the selected date are the new rows. *)
Lemma rows_of_date_save (i : routine_inputs) (st : session) :
  rows_of_date (selected_date i) (log_df (save_button i st)) = new_rows i.
Proof.
  assert (rows_of_date (selected_date i)
            (filter (λ r, log_date r ≠ selected_date i) (log_df st)) = [])
    as Hold.
  { apply filter_none, Forall_forall. intros r Hr%list_elem_of_filter. tauto. }
  unfold save_button. cbn [log_df]. case_decide as Hrows.
  - unfold rows_of_date in *. rewrite filter_app, Hold. cbn [app].
    apply filter_all, new_rows_date.
  - rewrite Hold. symmetry. by destruct (decide (new_rows i = [])).
Qed.

(** C9. In phases 1 to 4 and modes normal and low, for every day type,
    the cleaned names of the checkable blocks are pairwise distinct; a
    save writes one row per checkable block, under that name and in that
    order, so among the rows the log then holds for the selected date the
    pair (date, block) identifies a row. *)
Theorem checkable_names_distinct (i : routine_inputs) (st : session) :
  1 <= effective_phase i <= 4 →
  mode i = "normal" ∨ mode i = "low" →
  let checkable :=
    get_checkable_blocks (effective_phase i) (day_type i) (mode i) in
  NoDup (checkable.*1.*1)
  ∧ log_block <$> new_rows i = checkable.*1.*1
  ∧ NoDup ((λ r, (log_date r, log_block r))
             <$> rows_of_date (selected_date i) (log_df (save_button i st))).
Proof.
  intros Hphase Hmode checkable.
  assert (mode i ≠ "off") as Hoff by (destruct Hmode as [-> | ->]; done).
  assert (NoDup (checkable.*1.*1) ∧ log_block <$> new_rows i = checkable.*1.*1)
    as [Hdistinct Hrows].
  { subst checkable. unfold new_rows.
    rewrite get_checkable_blocks_template, get_detailed_schedule_template by done.
    rewrite (decide_False (P := mode i = "off")) by done.
    assert (effective_phase i = 1 ∨ effective_phase i = 2
            ∨ effective_phase i = 3 ∨ effective_phase i = 4)
      as [-> | [-> | [-> | ->]]] by lia;
      destruct (decide (day_type i = "weekday"));
      (split; [apply (bool_decide_unpack _); by vm_compute | by vm_compute]). }
  split; [done |]. split; [done |].
  rewrite rows_of_date_save.
  apply (NoDup_fmap_1 snd). rewrite <- list_fmap_compose.
  rewrite <- Hrows in Hdistinct. exact Hdistinct.
Qed.

Lemma checkable_names_distinct_witness :
  1 <= effective_phase sample_inputs <= 4
  ∧ (mode sample_inputs = "normal" ∨ mode sample_inputs = "low")
  ∧ NoDup ((get_checkable_blocks 3 "weekday" "normal").*1.*1)
  ∧ log_block <$> new_rows sample_inputs
    = (get_checkable_blocks 3 "weekday" "normal").*1.*1.
Proof.
  split; [simpl; lia |]. split; [left; reflexivity |].
  pose proof (checkable_names_distinct sample_inputs (Session [] [])
                ltac:(simpl; lia) (or_introl eq_refl)) as H.
  cbv zeta in H. destruct H as (H1 & H2 & _). exact (conj H1 H2).
Defined.

(** The check-in of [sample_inputs] writes ten rows, 65 minutes in all,
    which grade as "D-". *)
Example sample_check_in :
  length (new_rows sample_inputs) = 10%nat
  ∧ sum_minutes (new_rows sample_inputs) = 65
  ∧ get_daily_grade (daily_hours (sum_minutes (new_rows sample_inputs))) = "D-".
Proof. by vm_compute. Qed.

(** ** Subject synchronisation *)

Lemma foldl_progress_lookup (G : string → list log_entry) (ks : list string)
    (m0 : gmap string Z) (nm : string) :
  foldl (λ progress '(subj, rows),
           if decide (subj = "") then progress
           else <[subj := lecture_credits_from_rows rows]> progress)
        m0 ((λ subj, (subj, G subj)) <$> ks) !! nm
  = if decide (nm ∈ ks ∧ nm ≠ "")
    then Some (lecture_credits_from_rows (G nm)) else m0 !! nm.
Proof.
  revert m0. induction ks as [|k ks IH]; intros m0.
  - cbn. rewrite decide_False; [done |]. intros [[]%elem_of_nil _].
  - cbn [fmap list_fmap foldl]. rewrite IH. clear IH.
    destruct (decide (nm ∈ ks ∧ nm ≠ "")) as [[Hin Hne] | Hout].
    + rewrite (decide_True (P := nm ∈ k :: ks ∧ nm ≠ ""));
        [done | split; [by right | done]].
    + destruct (decide (nm = k)) as [-> | Hk].
      * destruct (decide (k = "")) as [-> | Hk0].
        -- by rewrite (decide_False (P := "" ∈ "" :: ks ∧ "" ≠ "")) by tauto.
        -- rewrite (decide_True (P := k ∈ k :: ks ∧ k ≠ ""))
             by (split; [by left | done]).
           by rewrite lookup_insert_eq.
      * rewrite (decide_False (P := nm ∈ k :: ks ∧ nm ≠ "")).
        2:{ intros [Hin Hne]. apply elem_of_cons in Hin as [? | ?]; tauto. }
        case_decide; [done |]. by rewrite lookup_insert_ne.
Qed.

Lemma lecture_credits_of_subject (log_df : list log_entry) (nm : string) :
  lecture_credits_from_rows (filter (λ r, log_subject r = Some nm) log_df)
  = subject_credits log_df nm.
Proof.
  unfold lecture_credits_from_rows, subject_credits.
  case_decide as Hnil; [by rewrite Hnil | done].
Qed.

(** The progress dictionary has a key for exactly the logged subjects,
    with the credits of the subject as its value. *)
Lemma compute_subject_progress_lookup (log_df : list log_entry) (nm : string) (p : Z) :
  compute_subject_progress log_df !! nm = Some p
  ↔ logged_subject log_df nm ∧ p = subject_credits log_df nm.
Proof.
  unfold compute_subject_progress, logged_subject, groupby_subject.
  case_decide as Hnil.
  - subst. rewrite lookup_empty. split; [done |].
    by intros [[_ (r & []%elem_of_nil & _)] _].
  - rewrite foldl_progress_lookup, lecture_credits_of_subject.
    assert (nm ∈ remove_dups (omap log_subject log_df)
            ↔ ∃ r, r ∈ log_df ∧ log_subject r = Some nm) as Hin.
    { by rewrite elem_of_remove_dups, list_elem_of_omap. }
    case_decide as Hdec.
    + split; [intros [= <-] | intros [_ ->]]; [| done].
      split; [| done]. destruct Hdec as [?%Hin ?]. done.
    + rewrite lookup_empty. split; [done |].
      intros [[? ?%Hin] _]. tauto.
Qed.

Lemma sync_subject_idempotent (progress : gmap string Z) (s : subject) :
  sync_subject progress (sync_subject progress s) = sync_subject progress s.
Proof.
  unfold sync_subject.
  destruct (progress !! name s) as [p|] eqn:Hp; cbv zeta; [| by rewrite Hp].
  destruct (decide (p `max` completed_lectures s ≠ completed_lectures s))
    as [Hnew | Hnew].
  - cbn [name completed_lectures]. rewrite Hp.
    by rewrite decide_False by lia.
  - rewrite Hp. by rewrite decide_False.
Qed.

Lemma sync_subjects_idempotent (log_df : list log_entry) (subjects : list subject) :
  sync_subjects_with_log log_df (sync_subjects_with_log log_df subjects)
  = sync_subjects_with_log log_df subjects.
Proof.
  unfold sync_subjects_with_log.
  destruct (decide (subjects = [])) as [-> | Hne]; [done |].
  case_decide; [done |].
  rewrite <- list_fmap_compose. apply list_fmap_ext.
  intros _ s _. apply sync_subject_idempotent.
Qed.

(** C5. Synchronisation keeps the subjects in place with their names,
    totals and active flags, and never lowers a subject's completed
    lectures: a subject the log has rows for gets the maximum of its
    current count and the credits the log holds for it, every other
    subject is unchanged, and so is any subject whose credits do not
    exceed its current count. *)
Theorem sync_never_decreases (log_df : list log_entry) (subjects : list subject) :
  Forall2 (λ s s',
      name s' = name s
      ∧ total_lectures s' = total_lectures s
      ∧ active s' = active s
      ∧ completed_lectures s <= completed_lectures s'
      ∧ (logged_subject log_df (name s) →
         completed_lectures s'
         = Z.max (completed_lectures s) (subject_credits log_df (name s)))
      ∧ (¬ logged_subject log_df (name s) → s' = s)
      ∧ (subject_credits log_df (name s) <= completed_lectures s → s' = s))
    subjects (sync_subjects_with_log log_df subjects).
Proof.
  unfold sync_subjects_with_log.
  destruct (decide (subjects = [])) as [-> | _]; [constructor |].
  apply Forall2_fmap_r, Forall_Forall2_diag, Forall_forall. intros s _.
  unfold compose, sync_subject.
  pose proof (compute_subject_progress_lookup log_df (name s)) as Hlook.
  destruct (compute_subject_progress log_df !! name s) as [p|].
  - destruct (proj1 (Hlook p) eq_refl) as [Hlogged ->]. cbv zeta.
    case_decide as Hnew; cbn [name total_lectures active completed_lectures];
      repeat split; try done; try lia; intros; exfalso; lia.
  - repeat split; try done; try lia. intros Hlogged.
    by pose proof (proj2 (Hlook _) (conj Hlogged eq_refl)).
Qed.

(** ** Idempotence of the save *)

(** C2. Saving is idempotent: with the same inputs a second save leaves
    the session as the first save left it, so the log holds the same
    rows for the selected date, and these are the rows built from the
    inputs. *)
Theorem save_button_idempotent (i : routine_inputs) (st : session) :
  save_button i (save_button i st) = save_button i st
  ∧ rows_of_date (selected_date i) (log_df (save_button i (save_button i st)))
    = rows_of_date (selected_date i) (log_df (save_button i st))
  ∧ rows_of_date (selected_date i) (log_df (save_button i st)) = new_rows i.
Proof.
  assert (save_button i (save_button i st) = save_button i st) as Hsave.
  { unfold save_button. cbn [log_df subjects].
    assert (filter (λ r, log_date r ≠ selected_date i) (new_rows i) = []) as Hnew.
    { apply filter_none. eapply Forall_impl; [apply new_rows_date |].
      intros r Hr. cbv beta. tauto. }
    case_decide.
    - rewrite filter_app, filter_filter_same, Hnew, app_nil_r.
      by rewrite sync_subjects_idempotent.
    - rewrite filter_filter_same. by rewrite sync_subjects_idempotent. }
  split; [done |]. split; [by rewrite Hsave |]. apply rows_of_date_save.
Qed.

(** ** Attendance streak *)

(** C1, on the failing input.  With done rows on the days 10, 9 and 8,
    no row on day 7 and a done row on day 6, the streak at day 10 is 4:
    the loop runs over the dates present in the log, so the unlogged day
    7 is never visited and day 6, older than it, is counted. *)
Theorem streak_counts_across_gap :
  rows_of_date 7 log_with_gap = []
  ∧ unique_dates log_with_gap = [10; 9; 8; 6]
  ∧ streak 10 log_with_gap = 4.
Proof. by vm_compute. Qed.

(** * Further properties of the code *)

(** ** Calendar and phase resolver *)

(** X1. The automatic phase as a function of the days elapsed since the start
    date: phase 1 during the first week and before the start, phase 2
    for days 7 to 20, phase 3 for days 21 to 41, phase 4 from day 42. *)
Theorem phase_of_elapsed_days (start_date target_date : date) :
  let phase := get_phase_by_week (get_week_number start_date target_date) in
  let delta := target_date - start_date in
  (phase = 1 ↔ delta < 7)
  ∧ (phase = 2 ↔ 7 <= delta < 21)
  ∧ (phase = 3 ↔ 21 <= delta < 42)
  ∧ (phase = 4 ↔ 42 <= delta).
Proof.
  intros phase delta. subst phase. unfold get_phase_by_week, get_week_number.
  fold delta.
  pose proof (Z.div_mod delta 7 ltac:(lia)).
  pose proof (Z.mod_pos_bound delta 7 ltac:(lia)).
  repeat case_decide; lia.
Qed.

(** X2. The phase never falls as the weeks go by, and it stays within 1..4. *)
Theorem get_phase_by_week_monotone (week_num week_num' : Z) :
  week_num <= week_num' →
  1 <= get_phase_by_week week_num
  ∧ get_phase_by_week week_num <= get_phase_by_week week_num'
  ∧ get_phase_by_week week_num' <= 4.
Proof. intros Hle. unfold get_phase_by_week. repeat case_decide; lia. Qed.

Lemma get_phase_by_week_monotone_witness :
  2 <= 5
  ∧ 1 <= get_phase_by_week 2
  ∧ get_phase_by_week 2 <= get_phase_by_week 5
  ∧ get_phase_by_week 5 <= 4.
Proof.
  split; [lia |]. apply (get_phase_by_week_monotone 2 5). lia.
Defined.

(** X3. From the start date on, the week number is 1 on the start date,
    never falls as the target date moves on, and grows by exactly one
    every seven days. *)
Theorem get_week_number_advances (start_date target_date : date) :
  start_date <= target_date →
  get_week_number start_date start_date = 1
  ∧ get_week_number start_date target_date
    <= get_week_number start_date (target_date + 1)
  ∧ get_week_number start_date (target_date + 7)
    = get_week_number start_date target_date + 1.
Proof.
  intros Hle. unfold get_week_number.
  replace (start_date - start_date) with 0 by lia.
  replace (target_date + 7 - start_date)
    with (target_date - start_date + 1 * 7) by lia.
  rewrite Z.div_add by lia.
  pose proof (Z.div_le_mono (target_date - start_date)
                (target_date + 1 - start_date) 7 ltac:(lia) ltac:(lia)).
  pose proof (Z.div_pos (target_date - start_date) 7 ltac:(lia) ltac:(lia)).
  cbv zeta. split; [reflexivity |]. split; lia.
Qed.

Lemma get_week_number_advances_witness :
  100 <= 120
  ∧ get_week_number 100 127 = get_week_number 100 120 + 1.
Proof.
  split; [lia |]. apply (get_week_number_advances 100 120). lia.
Defined.

(** X4. For the dates whose week lies within the calendar (ordinals 1 to
    3652053), the week range of a date starts on a Monday, ends on the
    Sunday six days later, both of them dates, and holds the date; a
    date lies inside it exactly when it has the same week range. *)
Theorem get_week_range_spec (d d' : date) :
  1 <= d <= 3652053 →
  1 <= d' <= 3652053 →
  let '(monday, sunday) := get_week_range d in
  weekday monday = 0
  ∧ sunday = monday + 6
  ∧ get_day_type sunday = "sun"
  ∧ monday <= d <= sunday
  ∧ 1 <= monday
  ∧ sunday <= 3652059
  ∧ (monday <= d' <= sunday ↔ get_week_range d' = get_week_range d).
Proof.
  intros Hd Hd'. unfold get_week_range, get_day_type, weekday.
  pose proof (Z.div_mod (d + 6) 7 ltac:(lia)).
  pose proof (Z.mod_pos_bound (d + 6) 7 ltac:(lia)).
  pose proof (Z.div_mod (d' + 6) 7 ltac:(lia)).
  pose proof (Z.mod_pos_bound (d' + 6) 7 ltac:(lia)).
  assert ((d - (d + 6) mod 7 + 6) mod 7 = 0) as Hmon.
  { replace (d - (d + 6) mod 7 + 6) with ((d + 6) / 7 * 7) by lia.
    apply Z.mod_mul. lia. }
  assert ((d - (d + 6) mod 7 + 6 + 6) mod 7 = 6) as Hsun.
  { replace (d - (d + 6) mod 7 + 6 + 6) with (6 + (d + 6) / 7 * 7) by lia.
    by rewrite Z.mod_add by lia. }
  split; [done |]. split; [done |]. split.
  { rewrite Hsun. done. }
  split; [lia |]. split; [lia |]. split; [lia |]. split.
  - intros Hin. f_equal; lia.
  - intros [= Hstart _]. lia.
Qed.

Lemma get_week_range_spec_witness :
  1 <= 739000 <= 3652053
  ∧ 1 <= 739003 <= 3652053
  ∧ get_week_range 739000 = (738998, 739004)
  ∧ (738998 <= 739003 <= 739004 ↔ get_week_range 739003 = get_week_range 739000).
Proof.
  assert (1 <= 739000 <= 3652053) as Hd by lia.
  assert (1 <= 739003 <= 3652053) as Hd' by lia.
  split; [exact Hd |]. split; [exact Hd' |]. split; [reflexivity |].
  pose proof (get_week_range_spec 739000 739003 Hd Hd') as H.
  exact (proj2 (proj2 (proj2 (proj2 (proj2 (proj2 H)))))).
Defined.

(** ** Schedule generator, all phases *)

(** The schedule reads the phase only through the tests [phase >= 1],
    [phase >= 2] and [phase = 1] to [phase = 4]: phases of 0 or less
    behave like 0 and phases above 4 like 5. *)
Lemma get_detailed_schedule_phase_class (phase : Z) (day_type mode : string) :
  get_detailed_schedule phase day_type mode
  = get_detailed_schedule (0 `max` (5 `min` phase)) day_type mode.
Proof.
  destruct (decide (phase <= 0)).
  { replace (0 `max` (5 `min` phase)) with 0 by lia.
    unfold get_detailed_schedule.
    rewrite !(decide_False (P := phase >= _)) by lia.
    by rewrite !(decide_False (P := phase = _)) by lia. }
  destruct (decide (5 <= phase)).
  { replace (0 `max` (5 `min` phase)) with 5 by lia.
    unfold get_detailed_schedule.
    rewrite !(decide_True (P := phase >= _)) by lia.
    by rewrite !(decide_False (P := phase = _)) by lia. }
  by replace (0 `max` (5 `min` phase)) with phase by lia.
Qed.

Lemma phase_class_cases (phase : Z) :
  let c := 0 `max` (5 `min` phase) in
  c = 0 ∨ c = 1 ∨ c = 2 ∨ c = 3 ∨ c = 4 ∨ c = 5.
Proof. lia. Qed.

(** Reduce a goal about [get_detailed_schedule phase day_type mode],
    outside the off mode, to the twelve templates. *)
Ltac schedule_cases phase day_type :=
  rewrite ?(get_detailed_schedule_phase_class phase);
  let c := fresh "c" in
  let Hc := fresh "Hc" in
  destruct (phase_class_cases phase) as [Hc|[Hc|[Hc|[Hc|[Hc|Hc]]]]];
  rewrite !Hc; clear Hc;
  destruct (decide (day_type = "weekday")).

(** X7. Above phase 4 no evening or weekend study template applies: outside
    the off mode every such phase gives the schedule of phase 5, whose
    checkable minutes add up to 60, less than in phases 2, 3 and 4. *)
Theorem schedule_above_phase_four (phase : Z) (day_type mode : string) :
  4 < phase →
  mode ≠ "off" →
  get_detailed_schedule phase day_type mode
  = get_detailed_schedule 5 day_type mode
  ∧ total_possible (get_checkable_blocks phase day_type mode) = 60
  ∧ 60 < total_possible (get_checkable_blocks 2 day_type mode).
Proof.
  intros Hphase Hmode.
  assert (get_detailed_schedule phase day_type mode
          = get_detailed_schedule 5 day_type mode) as Hsched.
  { rewrite get_detailed_schedule_phase_class.
    by replace (0 `max` (5 `min` phase)) with 5 by lia. }
  split; [done |]. unfold get_checkable_blocks. rewrite Hsched.
  rewrite !(get_detailed_schedule_template _ day_type mode) by done.
  destruct (decide (day_type = "weekday")); by vm_compute.
Qed.

Lemma schedule_above_phase_four_witness :
  4 < 7 ∧ "low" ≠ "off"
  ∧ total_possible (get_checkable_blocks 7 "sat" "low") = 60.
Proof.
  split; [lia |]. split; [discriminate |].
  apply (schedule_above_phase_four 7 "sat" "low"); [lia | discriminate].
Defined.

(** X8. Outside the off mode the mode has no effect on the schedule (the
    low mode shows the blocks of the normal mode), and every day type
    other than "weekday" gets the same weekend schedule. *)
Theorem schedule_ignores_mode (phase : Z) (day_type day_type' mode mode' : string) :
  mode ≠ "off" →
  mode' ≠ "off" →
  (day_type = "weekday" ↔ day_type' = "weekday") →
  get_detailed_schedule phase day_type mode
  = get_detailed_schedule phase day_type' mode'
  ∧ get_checkable_blocks phase day_type mode
    = get_checkable_blocks phase day_type' mode'.
Proof.
  intros Hmode Hmode' Hday.
  assert (get_detailed_schedule phase day_type mode
          = get_detailed_schedule phase day_type' mode') as Hsched.
  { rewrite (get_detailed_schedule_template phase day_type mode) by done.
    rewrite (get_detailed_schedule_template phase day_type' mode') by done.
    destruct (decide (day_type = "weekday")) as [Hd | Hd].
    - by rewrite decide_True by tauto.
    - by rewrite decide_False by tauto. }
  split; [done |]. unfold get_checkable_blocks. by rewrite Hsched.
Qed.

Lemma schedule_ignores_mode_witness :
  "low" ≠ "off" ∧ "normal" ≠ "off" ∧ ("sat" = "weekday" ↔ "sun" = "weekday")
  ∧ get_checkable_blocks 3 "sat" "low" = get_checkable_blocks 3 "sun" "normal".
Proof.
  assert ("sat" = "weekday" ↔ "sun" = "weekday") as Hday by (split; discriminate).
  split; [discriminate |]. split; [discriminate |]. split; [exact Hday |].
  apply (schedule_ignores_mode 3 "sat" "sun" "low" "normal");
    [discriminate | discriminate | exact Hday].
Defined.

(** ** Check-in save handler, all phases *)

Lemma dict_set_fresh {V : Type} (d : list (string * V)) (k : string) (v : V) :
  k ∉ d.*1 → dict_set d k v = d ++ [(k, v)].
Proof.
  induction d as [|[k' v'] d IH]; intros Hk; [done |].
  cbn [dict_set]. rewrite fmap_cons, not_elem_of_cons in Hk.
  destruct Hk as [Hne Hk]. cbn in Hne.
  rewrite decide_False by done. by rewrite IH.
Qed.

Lemma dict_get_fmap {A V : Type} (key : A → string) (val : A → V)
    (l : list A) (x : A) :
  NoDup (key <$> l) → x ∈ l →
  dict_get ((λ y, (key y, val y)) <$> l) (key x) = Some (val x).
Proof.
  induction l as [|y l IH]; intros Hnd Hx; [by apply elem_of_nil in Hx |].
  rewrite fmap_cons in Hnd. apply NoDup_cons in Hnd as [Hy Hnd].
  cbn [fmap list_fmap dict_get]. apply elem_of_cons in Hx as [-> | Hx].
  - by rewrite decide_True.
  - rewrite decide_False; [by apply IH |].
    intros Heq. apply Hy. rewrite Heq. by apply list_elem_of_fmap_2.
Qed.

Lemma fmap_pair_fst {A K V : Type} (key : A → K) (val : A → V) (l : list A) :
  ((λ y, (key y, val y)) <$> l).*1 = key <$> l.
Proof. induction l as [|y l IH]; [done |]. cbn. by f_equal. Qed.

(** When the cleaned names of a schedule are pairwise distinct, the
    widget loop overwrites nothing: it yields one check-box state per
    checkable item and one meta entry per item, in schedule order. *)
Lemma routine_widgets_distinct (chk : string → bool) (schedule : list schedule_item) :
  NoDup (item_key <$> schedule) →
  routine_widgets chk schedule
  = ((λ item, (item_key item, chk (item_key item)))
       <$> filter (λ item, item_category item ∈ ["study"; "exercise"]) schedule,
     (λ item, (item_key item, (item_minutes item, item_category item)))
       <$> schedule).
Proof.
  unfold routine_widgets.
  induction schedule as [|x schedule IH] using rev_ind; intros Hnd; [done |].
  rewrite fmap_app in Hnd. apply NoDup_app in Hnd as (Hnd & Hx & _).
  rewrite foldl_app, IH by done. cbn [foldl].
  destruct x as [[[[time nm] category] minutes] desc].
  assert (clean_block_name nm ∉ item_key <$> schedule) as Hfresh.
  { intros Hin. apply (Hx _ Hin). cbn. by left. }
  rewrite filter_app, !fmap_app.
  rewrite (dict_set_fresh (_ <$> schedule)) by (by rewrite fmap_pair_fst).
  case_bool_decide as Hcat.
  - rewrite dict_set_fresh.
    + by rewrite filter_cons_True by done.
    + rewrite fmap_pair_fst. intros Hin. apply Hfresh.
      apply list_elem_of_fmap in Hin as (y & -> & Hy%list_elem_of_filter).
      apply list_elem_of_fmap_2. tauto.
  - rewrite filter_cons_False by done. by rewrite app_nil_r.
Qed.

(** In every schedule the cleaned block names are pairwise distinct,
    whatever the phase, day type and mode. *)
Lemma schedule_keys_distinct (phase : Z) (day_type mode : string) :
  NoDup (item_key <$> get_detailed_schedule phase day_type mode).
Proof.
  destruct (decide (mode = "off")) as [-> | Hmode].
  { by apply (bool_decide_unpack _). }
  rewrite (get_detailed_schedule_template phase day_type mode) by done.
  schedule_cases phase day_type; apply (bool_decide_unpack _); by vm_compute.
Qed.

(** Outside the off mode the new rows are the rows of the checkable
    items, in schedule order. *)
Lemma new_rows_items (i : routine_inputs) :
  mode i ≠ "off" →
  new_rows i
  = row_of_item i <$> checkable_items (effective_phase i) (day_type i) (mode i).
Proof.
  intros Hmode. unfold new_rows, checkable_items.
  rewrite (decide_False (P := mode i = "off")) by done.
  pose proof (schedule_keys_distinct (effective_phase i) (day_type i) (mode i))
    as Hnd.
  rewrite routine_widgets_distinct by done.
  rewrite <- list_fmap_compose. apply list_fmap_ext.
  intros _ item [_ Hitem]%list_elem_of_lookup_2%list_elem_of_filter.
  unfold compose, row_of_item. cbv beta iota zeta.
  rewrite (dict_get_fmap item_key
             (λ item, (item_minutes item, item_category item))) by done.
  cbn [from_option fmap option_fmap option_map fst snd].
  replace (bool_decide (Some (item_category item) = Some "study"))
    with (bool_decide (item_category item = "study")); [done |].
  apply bool_decide_ext. split; congruence.
Qed.

Lemma new_rows_off (i : routine_inputs) :
  mode i = "off" → new_rows i = [off_row i].
Proof. intros Hmode. unfold new_rows. by rewrite decide_True. Qed.

Lemma checkable_items_off (phase : Z) (day_type : string) :
  checkable_items phase day_type "off" = [].
Proof. done. Qed.

Lemma get_checkable_blocks_items (phase : Z) (day_type mode : string) :
  get_checkable_blocks phase day_type mode
  = (λ item, (item_key item, item_minutes item, item.2))
      <$> checkable_items phase day_type mode.
Proof.
  unfold checkable_items, get_checkable_blocks.
  destruct (decide (mode = "off")) as [-> | Hmode]; [done |].
  rewrite (get_detailed_schedule_template phase day_type mode) by done.
  schedule_cases phase day_type; by vm_compute.
Qed.

Lemma schedule_minutes_nonneg (phase : Z) (day_type mode : string) :
  Forall (λ item, 0 <= item_minutes item
                  ∧ (item_category item ≠ "study" → item_minutes item = 0))
    (get_detailed_schedule phase day_type mode).
Proof.
  destruct (decide (mode = "off")) as [-> | Hmode].
  { by apply (bool_decide_unpack _). }
  rewrite (get_detailed_schedule_template phase day_type mode) by done.
  schedule_cases phase day_type; by apply (bool_decide_unpack _).
Qed.

Lemma total_possible_items (phase : Z) (day_type mode : string) :
  total_possible (get_checkable_blocks phase day_type mode)
  = foldr Z.add 0 (item_minutes <$> checkable_items phase day_type mode).
Proof.
  rewrite get_checkable_blocks_items. unfold total_possible.
  by rewrite <- list_fmap_compose.
Qed.

Lemma sum_filter_zero {A : Type} (P : A → Prop) `{∀ x, Decision (P x)}
    (f : A → Z) (l : list A) :
  Forall (λ x, ¬ P x → f x = 0) l →
  foldr Z.add 0 (f <$> filter P l) = foldr Z.add 0 (f <$> l).
Proof.
  induction 1 as [|x l Hx _ IH]; [done |].
  destruct (decide (P x)).
  - rewrite filter_cons_True by done. cbn. by rewrite IH.
  - rewrite filter_cons_False by done. cbn. rewrite IH, Hx by done. lia.
Qed.

(** X6. In every schedule, whatever the phase, day type and mode, the
    minutes are non-negative and only study blocks carry minutes: the
    exercise, morning, work and rest blocks all have 0 minutes.  So the
    guard [minutes >= 0] of [get_checkable_blocks] drops no block, and
    the possible total is the sum of the minutes of the whole schedule. *)
Theorem schedule_minutes_invariant (phase : Z) (day_type mode : string) :
  let schedule := get_detailed_schedule phase day_type mode in
  Forall (λ item, 0 <= item_minutes item
                  ∧ (item_category item ≠ "study" → item_minutes item = 0))
    schedule
  ∧ get_checkable_blocks phase day_type mode
    = (λ item, (clean_block_name (item_name item), item_minutes item, item.2))
        <$> filter (λ item, item_category item ∈ ["study"; "exercise"]) schedule
  ∧ total_possible (get_checkable_blocks phase day_type mode)
    = foldr Z.add 0 (item_minutes <$> schedule).
Proof.
  intros schedule. subst schedule.
  pose proof (schedule_minutes_nonneg phase day_type mode) as Hmin.
  split; [done |]. split; [apply get_checkable_blocks_items |].
  rewrite total_possible_items. unfold checkable_items.
  apply sum_filter_zero. eapply Forall_impl; [exact Hmin |].
  intros item [_ Hzero] Hcat. apply Hzero. intros Hstudy. apply Hcat.
  rewrite Hstudy. by left.
Qed.

(** X9. The rows a save builds, for every phase, day type and mode: in the
    off mode the single OFF row; otherwise one row per checkable block,
    in schedule order, under pairwise distinct cleaned names, with the
    state of its check box, the block's minutes if it is ticked and 0 if
    not, and the selected subject on study blocks only. *)
Theorem new_rows_per_checkable (i : routine_inputs) :
  new_rows i
  = (if decide (mode i = "off") then [off_row i]
     else row_of_item i
            <$> checkable_items (effective_phase i) (day_type i) (mode i))
  ∧ (if decide (mode i = "off") then log_block <$> new_rows i = ["OFF"]
     else log_block <$> new_rows i
          = (get_checkable_blocks (effective_phase i) (day_type i) (mode i)).*1.*1)
  ∧ NoDup (log_block <$> new_rows i).
Proof.
  destruct (decide (mode i = "off")) as [Hmode | Hmode].
  - rewrite new_rows_off by done. split; [done |]. split; [done |].
    apply NoDup_singleton.
  - rewrite new_rows_items by done. split; [done |].
    rewrite get_checkable_blocks_items, <- !list_fmap_compose.
    split; [done |].
    pose proof (schedule_keys_distinct (effective_phase i) (day_type i) (mode i))
      as Hnd.
    assert (NoDup (item_key <$> checkable_items (effective_phase i)
                                  (day_type i) (mode i))) as Hkeys.
    { eapply sublist_NoDup; [exact Hnd |].
      apply fmap_sublist, sublist_filter. }
    exact Hkeys.
Qed.

Lemma sum_minutes_items (i : routine_inputs) (items : list schedule_item) :
  Forall (λ item, 0 <= item_minutes item) items →
  0 <= sum_minutes (row_of_item i <$> items)
       <= foldr Z.add 0 (item_minutes <$> items)
  ∧ ((∀ block, checked i block = true) →
     sum_minutes (row_of_item i <$> items)
     = foldr Z.add 0 (item_minutes <$> items))
  ∧ ((∀ block, checked i block = false) →
     sum_minutes (row_of_item i <$> items) = 0).
Proof.
  unfold sum_minutes.
  induction 1 as [|item items Hitem _ (IH & IHall & IHnone)]; [done |].
  cbn [fmap list_fmap foldr row_of_item log_estimated_minutes].
  split; [destruct (checked i (item_key item)); lia |]. split.
  - intros Hall. rewrite Hall, <- IHall by done. done.
  - intros Hnone. rewrite Hnone, IHnone by done. done.
Qed.

Lemma new_rows_minutes_bounds (i : routine_inputs) :
  let possible :=
    total_possible
      (get_checkable_blocks (effective_phase i) (day_type i) (mode i)) in
  0 <= sum_minutes (new_rows i) <= possible
  ∧ ((∀ block, checked i block = true) → sum_minutes (new_rows i) = possible)
  ∧ ((∀ block, checked i block = false) → sum_minutes (new_rows i) = 0).
Proof.
  intros possible. subst possible. rewrite total_possible_items.
  destruct (decide (mode i = "off")) as [Hmode | Hmode].
  - rewrite new_rows_off, Hmode by done. by cbn.
  - rewrite new_rows_items by done.
    apply sum_minutes_items. unfold checkable_items.
    pose proof (schedule_minutes_nonneg (effective_phase i) (day_type i) (mode i))
      as Hmin.
    apply Forall_forall. intros item [_ Hitem]%list_elem_of_filter.
    rewrite Forall_forall in Hmin. by apply Hmin.
Qed.

(** X10. After a save the minutes logged for the selected date lie between 0
    and the possible total of the day's checkable blocks; they reach the
    total when every box is ticked and are 0 when none is. *)
Theorem saved_minutes_bounds (i : routine_inputs) (st : session) :
  let saved := rows_of_date (selected_date i) (log_df (save_button i st)) in
  let possible :=
    total_possible
      (get_checkable_blocks (effective_phase i) (day_type i) (mode i)) in
  0 <= sum_minutes saved <= possible
  ∧ ((∀ block, checked i block = true) → sum_minutes saved = possible)
  ∧ ((∀ block, checked i block = false) → sum_minutes saved = 0).
Proof.
  intros saved possible. subst saved possible.
  rewrite rows_of_date_save. apply new_rows_minutes_bounds.
Qed.

Lemma total_possible_weekday (phase : Z) (mode : string) :
  total_possible (get_checkable_blocks phase "weekday" mode) <= 250.
Proof.
  unfold get_checkable_blocks.
  destruct (decide (mode = "off")) as [-> | Hmode]; [by vm_compute |].
  rewrite (get_detailed_schedule_template phase "weekday" mode) by done.
  rewrite get_detailed_schedule_phase_class.
  destruct (phase_class_cases phase) as [Hc|[Hc|[Hc|[Hc|[Hc|Hc]]]]];
    rewrite Hc; by vm_compute.
Qed.

(** X11. A weekday never earns the top grade: whatever the phase and however
    many boxes are ticked, a weekday save logs at most 250 minutes, and
    the daily grade of the saved day is not "S". *)
Theorem weekday_grade_below_S (i : routine_inputs) (st : session) :
  day_type i = "weekday" →
  let saved := rows_of_date (selected_date i) (log_df (save_button i st)) in
  sum_minutes saved <= 250
  ∧ get_daily_grade (daily_hours (sum_minutes saved)) ≠ "S".
Proof.
  intros Hday saved. subst saved. rewrite rows_of_date_save.
  pose proof (new_rows_minutes_bounds i) as [Hbound _]. cbv zeta in Hbound.
  rewrite Hday in Hbound.
  pose proof (total_possible_weekday (effective_phase i) (mode i)).
  split; [lia |]. intros Hgrade.
  apply daily_grade_intervals in Hgrade.
  revert Hgrade. unfold daily_hours.
  case_decide as Hzero; unfold Qle; cbn; lia.
Qed.

Lemma weekday_grade_below_S_witness :
  day_type sample_inputs = "weekday"
  ∧ sum_minutes (rows_of_date (selected_date sample_inputs)
                   (log_df (save_button sample_inputs (Session [] []))))
    <= 250.
Proof.
  split; [reflexivity |].
  apply (weekday_grade_below_S sample_inputs (Session [] []) eq_refl).
Defined.

(** X12. A save touches the selected date only: for any other date the log
    holds the same rows, in the same order, as before. *)
Theorem save_keeps_other_dates (i : routine_inputs) (st : session) (d : date) :
  d ≠ selected_date i →
  rows_of_date d (log_df (save_button i st)) = rows_of_date d (log_df st)
  ∧ get_logged_day_context (log_df (save_button i st)) d
    = get_logged_day_context (log_df st) d.
Proof.
  intros Hd.
  assert (rows_of_date d (log_df (save_button i st)) = rows_of_date d (log_df st))
    as Hrows.
  { unfold save_button, rows_of_date. cbn [log_df].
    assert (filter (λ r, log_date r = d)
              (filter (λ r, log_date r ≠ selected_date i) (log_df st))
            = filter (λ r, log_date r = d) (log_df st)) as Hold.
    { rewrite list_filter_filter. apply list_filter_iff.
      intros r. split; [tauto | intros ->; done]. }
    case_decide; [| done].
    rewrite filter_app, Hold.
    rewrite (filter_none (λ r, log_date r = d) (new_rows i)), app_nil_r; [done |].
    eapply Forall_impl; [apply new_rows_date |].
    intros r Hr. cbv beta. congruence. }
  split; [done |]. unfold get_logged_day_context.
  fold (rows_of_date d (log_df (save_button i st))).
  fold (rows_of_date d (log_df st)). rewrite Hrows.
  destruct (rows_of_date d (log_df st)) as [|row rows] eqn:Hd_rows.
  - by repeat case_decide.
  - rewrite !decide_False; [done | |].
    + intros Hnil. by rewrite Hnil in Hd_rows.
    + intros Hnil. by rewrite Hnil in Hrows.
Qed.

Lemma save_keeps_other_dates_witness :
  9 ≠ selected_date sample_inputs
  ∧ rows_of_date 9 (log_df (save_button sample_inputs (Session log_with_gap [])))
    = rows_of_date 9 log_with_gap.
Proof.
  split; [discriminate |].
  apply (save_keeps_other_dates sample_inputs (Session log_with_gap []) 9).
  discriminate.
Defined.

Lemma checkable_items_nonempty (phase : Z) (day_type mode : string) :
  1 <= phase → mode ≠ "off" → checkable_items phase day_type mode ≠ [].
Proof.
  intros Hphase Hmode. unfold checkable_items.
  rewrite (get_detailed_schedule_template phase day_type mode) by done.
  rewrite get_detailed_schedule_phase_class.
  assert (0 `max` (5 `min` phase) = 1 ∨ 0 `max` (5 `min` phase) = 2
          ∨ 0 `max` (5 `min` phase) = 3 ∨ 0 `max` (5 `min` phase) = 4
          ∨ 0 `max` (5 `min` phase) = 5) as [-> | [-> | [-> | [-> | ->]]]]
    by lia;
    destruct (decide (day_type = "weekday")); by vm_compute.
Qed.

(** X13. The settings of a saved day are read back: when a save writes at
    least one row, as it does in the off mode and in every phase from 1
    on, the logged context of the selected date is the phase, day type
    and mode of the inputs, whatever the log held before; when it writes
    none, the date has no logged context afterwards. *)
Theorem saved_day_context (i : routine_inputs) (st : session) :
  get_logged_day_context (log_df (save_button i st)) (selected_date i)
  = (if decide (new_rows i = []) then None
     else Some (effective_phase i, day_type i, mode i))
  ∧ (mode i = "off" ∨ 1 <= effective_phase i → new_rows i ≠ []).
Proof.
  split.
  2:{ intros Hrows. destruct (decide (mode i = "off")) as [Hmode | Hmode].
      - by rewrite new_rows_off.
      - rewrite new_rows_items by done. intros Hnil%fmap_nil_inv.
        by apply (checkable_items_nonempty (effective_phase i) (day_type i)
                    (mode i)); [tauto | |]. }
  unfold get_logged_day_context.
  fold (rows_of_date (selected_date i) (log_df (save_button i st))).
  rewrite rows_of_date_save.
  destruct (new_rows i) as [|row rows] eqn:Hnew.
  - rewrite (decide_True (P := @nil log_entry = [])) by done. by case_decide.
  - rewrite (decide_False (P := row :: rows = [])) by done.
    rewrite decide_False.
    + destruct (decide (mode i = "off")) as [Hmode | Hmode].
      * rewrite new_rows_off in Hnew by done. by injection Hnew as <- _.
      * rewrite new_rows_items in Hnew by done.
        destruct (checkable_items _ _ _) as [|item items]; [done |].
        by injection Hnew as <- _.
    + unfold save_button. cbn [log_df]. rewrite Hnew.
      rewrite decide_True by done. intros Hnil.
      by apply app_eq_nil in Hnil as [_ ?].
Qed.

(** ** Lecture credits of a check-in *)

(** In every schedule a block whose name earns a lecture credit is a
    study block. *)
Lemma credit_blocks_are_study (phase : Z) (day_type mode : string) :
  Forall (λ item, item_category item = "study"
                  ∨ get_lecture_increment (item_key item) = 0)
    (get_detailed_schedule phase day_type mode).
Proof.
  destruct (decide (mode = "off")) as [-> | Hmode].
  { by apply (bool_decide_unpack _). }
  rewrite (get_detailed_schedule_template phase day_type mode) by done.
  schedule_cases phase day_type; apply (bool_decide_unpack _); by vm_compute.
Qed.

Lemma lecture_credits_from_rows_sum (rows : list log_entry) :
  lecture_credits_from_rows rows
  = foldr Z.add 0
      (get_lecture_increment
         <$> (log_block <$> filter (λ r, log_done r = true) rows)).
Proof. unfold lecture_credits_from_rows. by case_decide as Hnil; [rewrite Hnil |]. Qed.

Lemma subject_credits_cons (r : log_entry) (rows : list log_entry) (nm : string) :
  subject_credits (r :: rows) nm
  = (if bool_decide (log_subject r = Some nm ∧ log_done r = true)
     then get_lecture_increment (log_block r) else 0)
    + subject_credits rows nm.
Proof.
  unfold subject_credits. case_bool_decide as Hr.
  - destruct Hr. by rewrite !filter_cons_True by done.
  - destruct (decide (log_subject r = Some nm)).
    + rewrite (filter_cons_True (λ r, log_subject r = Some nm)) by done.
      rewrite filter_cons_False by tauto. done.
    + by rewrite filter_cons_False by done.
Qed.

(** X14. When there are subjects to choose from, a save credits every
    lecture of the ticked blocks to the selected subject: the credits
    the new rows hold for it are the credits of all their done rows. *)
Theorem saved_credits_go_to_subject (i : routine_inputs) :
  subject_options i ≠ [] →
  subject_credits (new_rows i) (selected_subject i)
  = lecture_credits_from_rows (new_rows i).
Proof.
  intros Hopts. rewrite lecture_credits_from_rows_sum.
  destruct (decide (mode i = "off")) as [Hmode | Hmode].
  { rewrite new_rows_off by done. rewrite subject_credits_cons.
    by rewrite bool_decide_eq_false_2 by (by intros [? _]). }
  rewrite new_rows_items by done. unfold checkable_items.
  pose proof (credit_blocks_are_study (effective_phase i) (day_type i) (mode i))
    as Hstudy.
  induction Hstudy as [|item items Hitem _ IH]; [done |].
  destruct (decide (item_category item ∈ ["study"; "exercise"])).
  2:{ by rewrite filter_cons_False by done. }
  rewrite filter_cons_True by done. rewrite fmap_cons, subject_credits_cons, IH.
  cbn [row_of_item log_subject log_done log_block].
  rewrite (bool_decide_eq_true_2 (subject_options i ≠ [])) by done.
  rewrite andb_true_r.
  assert (log_done (row_of_item i item) = checked i (item_key item))
    as Hd by done.
  assert (log_block (row_of_item i item) = item_key item) as Hb by done.
  destruct (checked i (item_key item)).
  - rewrite filter_cons_True by done. rewrite !fmap_cons, Hb.
    cbn [foldr]. f_equal.
    destruct (decide (item_category item = "study")) as [Hcat | Hcat].
    + rewrite (bool_decide_eq_true_2 _ Hcat).
      by rewrite bool_decide_eq_true_2.
    + rewrite (bool_decide_eq_false_2 _ Hcat).
      rewrite bool_decide_eq_false_2 by (by intros [? _]).
      destruct Hitem as [? | ->]; done.
  - rewrite filter_cons_False by (rewrite Hd; done).
    rewrite bool_decide_eq_false_2; [done |]. intros [_ ?]. done.
Qed.

Lemma saved_credits_go_to_subject_witness :
  subject_options sample_inputs ≠ []
  ∧ subject_credits (new_rows sample_inputs) (selected_subject sample_inputs)
    = lecture_credits_from_rows (new_rows sample_inputs).
Proof.
  split; [discriminate |].
  apply (saved_credits_go_to_subject sample_inputs). discriminate.
Defined.

(** ** Attendance streak, in general *)

#[local] Instance Zge_transitive : Transitive Z.ge.
Proof. intros x y z. lia. Qed.

#[local] Instance Zge_total : Total Z.ge.
Proof. intros x y. lia. Qed.

Lemma leading_run_bounds (P : date → bool) (dates : list date) :
  0 <= leading_run P dates <= Z.of_nat (length dates).
Proof.
  induction dates as [|d dates IH]; cbn [leading_run length]; [lia |].
  destruct (P d); lia.
Qed.

(** The loop adds to its counter the length of the leading run of
    attended dates among the dates that are not in the future. *)
Lemma streak_loop_leading_run (today : date) (log_df : list log_entry)
    (dates : list date) (acc : Z) :
  streak_loop today log_df dates acc
  = acc + leading_run (attended log_df) (filter (λ d, d <= today) dates).
Proof.
  revert acc. induction dates as [|d dates IH]; intros acc.
  - cbn. lia.
  - cbn [streak_loop]. destruct (decide (d > today)) as [Hfut | Hfut].
    + rewrite filter_cons_False by lia. apply IH.
    + rewrite filter_cons_True by lia. cbn [leading_run]. unfold attended at 1.
      destruct (decide (rows_of_date d log_df = [])) as [-> | Hrows].
      * cbn. lia.
      * destruct (existsb _ _); [| lia].
        rewrite IH. symmetry. apply Z.add_assoc.
Qed.

Lemma unique_dates_elem_of (log_df : list log_entry) (d : date) :
  d ∈ unique_dates log_df ↔ rows_of_date d log_df ≠ [].
Proof.
  unfold unique_dates, rows_of_date. case_decide as Hnil.
  - subst. split; [by intros ?%elem_of_nil | done].
  - rewrite merge_sort_Permutation, elem_of_remove_dups, list_elem_of_fmap.
    split.
    + intros (r & -> & Hr) Hempty.
      by eapply (filter_nil_not_elem_of _ _ r Hempty).
    + intros Hne. destruct (filter _ log_df) as [|r rows] eqn:Hf; [done |].
      assert (r ∈ filter (λ r, log_date r = d) log_df) as Hr
        by (rewrite Hf; by left).
      apply list_elem_of_filter in Hr as [Hd Hr]. eauto.
Qed.

Lemma unique_dates_sorted (log_df : list log_entry) :
  StronglySorted Z.gt (unique_dates log_df).
Proof.
  unfold unique_dates. case_decide; [constructor |].
  pose proof (StronglySorted_merge_sort Z.ge
                (remove_dups (log_date <$> log_df))) as Hsorted.
  assert (NoDup (merge_sort Z.ge (remove_dups (log_date <$> log_df)))) as Hnd.
  { rewrite merge_sort_Permutation. apply NoDup_remove_dups. }
  induction Hsorted as [|x l _ IH Hx]; [constructor |].
  apply NoDup_cons in Hnd as [Hin Hnd]. constructor; [by apply IH |].
  rewrite Forall_forall in Hx |- *. intros y Hy.
  specialize (Hx y Hy). assert (x ≠ y) by (by intros ->). lia.
Qed.

(** X15. The streak is the number of most recent logged dates, today or
    earlier, that in a row each have a done row other than OFF.  The
    dates the loop visits are the dates with at least one row, each
    once, latest first; the streak is at most their number. *)
Theorem streak_is_leading_run (today : date) (log_df : list log_entry) :
  let dates := filter (λ d, d <= today) (unique_dates log_df) in
  streak today log_df = leading_run (attended log_df) dates
  ∧ 0 <= streak today log_df <= Z.of_nat (length dates)
  ∧ StronglySorted Z.gt (unique_dates log_df)
  ∧ (∀ d, d ∈ unique_dates log_df ↔ rows_of_date d log_df ≠ []).
Proof.
  intros dates. subst dates. unfold streak.
  rewrite streak_loop_leading_run, Z.add_0_l.
  split; [done |]. split; [apply leading_run_bounds |].
  split; [apply unique_dates_sorted |]. apply unique_dates_elem_of.
Qed.

Lemma filter_le_head (today : date) (dates : list date) :
  StronglySorted Z.gt dates → today ∈ dates →
  ∃ rest, filter (λ d, d <= today) dates = today :: rest.
Proof.
  induction 1 as [|x l _ IH Hx]; intros Hin; [by apply elem_of_nil in Hin |].
  apply elem_of_cons in Hin as [<- | Hin].
  - rewrite filter_cons_True by lia. eauto.
  - rewrite Forall_forall in Hx. specialize (Hx today Hin).
    rewrite filter_cons_False by lia. by apply IH.
Qed.

(** When the log has rows for today, the streak is at least 1 exactly
    when one of them is done and is not the OFF row. *)
Lemma streak_today_logged (today : date) (log_df : list log_entry) :
  rows_of_date today log_df ≠ [] →
  (attended log_df today = true → 1 <= streak today log_df)
  ∧ (attended log_df today = false → streak today log_df = 0).
Proof.
  intros Hrows%unique_dates_elem_of.
  destruct (filter_le_head today (unique_dates log_df)
              (unique_dates_sorted log_df) Hrows) as [rest Hrest].
  unfold streak. rewrite streak_loop_leading_run, Hrest. cbn [leading_run].
  pose proof (leading_run_bounds (attended log_df) rest).
  split; intros ->; lia.
Qed.

(** X16. The streak right after a save, taken on the saved date.  If the
    save wrote rows, the streak is at least 1 exactly when one of the
    new rows is done and is not the OFF row; so an OFF day, and a day
    saved with no box ticked, bring the streak to 0. *)
Theorem streak_after_save (i : routine_inputs) (st : session) :
  new_rows i ≠ [] →
  let today := selected_date i in
  let log' := log_df (save_button i st) in
  (1 <= streak today log'
   ↔ ∃ r, r ∈ new_rows i ∧ log_done r = true ∧ log_block r ≠ "OFF")
  ∧ (mode i = "off" → streak today log' = 0)
  ∧ ((∀ block, checked i block = false) → streak today log' = 0).
Proof.
  intros Hnew today log'. subst today log'.
  assert (rows_of_date (selected_date i) (log_df (save_button i st)) ≠ [])
    as Hrows by (by rewrite rows_of_date_save).
  destruct (streak_today_logged _ _ Hrows) as [Hyes Hno].
  assert (attended (log_df (save_button i st)) (selected_date i) = true
          ↔ ∃ r, r ∈ new_rows i ∧ log_done r = true ∧ log_block r ≠ "OFF")
    as Hatt.
  { unfold attended. rewrite rows_of_date_save, existsb_exists.
    split; intros (r & Hr & Hdone); exists r.
    - apply andb_true_iff in Hdone as [?%bool_decide_eq_true ?%bool_decide_eq_true].
      by rewrite list_elem_of_In.
    - rewrite <- list_elem_of_In. split; [done |].
      apply andb_true_iff. by rewrite !bool_decide_eq_true. }
  destruct (attended _ _) eqn:Hatt_eq.
  - specialize (Hyes eq_refl). destruct (proj1 Hatt eq_refl) as (r & Hr & Hdone & Hblock).
    split; [split; eauto |]. split.
    + intros Hmode. rewrite new_rows_off in Hr by done.
      apply list_elem_of_singleton in Hr as ->. done.
    + intros Hnone. exfalso.
      destruct (decide (mode i = "off")) as [Hmode | Hmode].
      * rewrite new_rows_off in Hr by done.
        apply list_elem_of_singleton in Hr as ->. done.
      * rewrite new_rows_items in Hr by done.
        apply list_elem_of_fmap in Hr as (item & -> & _).
        cbn in Hdone. by rewrite Hnone in Hdone.
  - specialize (Hno eq_refl). rewrite Hno. split; [| done].
    split; [lia |]. intros Hex. apply Hatt in Hex. done.
Qed.

Lemma streak_after_save_witness :
  new_rows sample_inputs ≠ []
  ∧ (1 <= streak (selected_date sample_inputs)
            (log_df (save_button sample_inputs (Session log_with_gap [])))
     ↔ ∃ r, r ∈ new_rows sample_inputs
            ∧ log_done r = true ∧ log_block r ≠ "OFF").
Proof.
  assert (new_rows sample_inputs ≠ []) as Hnew by (by vm_compute).
  split; [exact Hnew |].
  apply (streak_after_save sample_inputs (Session log_with_gap []) Hnew).
Defined.

(** ** Subject synchronisation, further *)

Lemma fmap_neq_exists {A : Type} `{EqDecision A} (f : A → A) (l : list A) :
  f <$> l ≠ l ↔ ∃ x, x ∈ l ∧ f x ≠ x.
Proof.
  induction l as [|y l IH].
  - split; [done | by intros (x & ?%elem_of_nil & _)].
  - rewrite fmap_cons. split.
    + intros Hne. destruct (decide (f y = y)) as [Hy | Hy].
      * assert (f <$> l ≠ l) as Hl by (intros Heq; apply Hne; congruence).
        apply IH in Hl as (x & Hx & Hfx). exists x. split; [by right | done].
      * exists y. split; [by left | done].
    + intros (x & Hx & Hfx) Heq. injection Heq as Hy Hl.
      apply elem_of_cons in Hx as [-> | Hx]; [done |].
      assert (f <$> l ≠ l) as Hne by (apply IH; eauto). done.
Qed.

Lemma sync_subject_changes (log_df : list log_entry) (s : subject) :
  sync_subject (compute_subject_progress log_df) s ≠ s
  ↔ logged_subject log_df (name s)
    ∧ completed_lectures s < subject_credits log_df (name s).
Proof.
  unfold sync_subject.
  pose proof (compute_subject_progress_lookup log_df (name s)) as Hlook.
  destruct (compute_subject_progress log_df !! name s) as [p|].
  - destruct (proj1 (Hlook p) eq_refl) as [Hlogged ->]. cbv zeta.
    case_decide as Hnew.
    + split; [intros _; split; [done | lia] |].
      intros _ Heq. apply (f_equal completed_lectures) in Heq.
      cbn in Heq. lia.
    + split; [done | intros [_ ?]; lia].
  - split; [done |]. intros [Hlogged _].
    by pose proof (proj2 (Hlook _) (conj Hlogged eq_refl)).
Qed.

(** X17. Synchronisation writes the subjects back exactly when some subject
    the log has rows for holds more credits in the log than completed
    lectures; once synchronised, a second synchronisation with the same
    log changes nothing and writes nothing. *)
Theorem sync_changed_spec (log_df : list log_entry) (subjects : list subject) :
  (sync_changed log_df subjects = true
   ↔ ∃ s, s ∈ subjects
          ∧ logged_subject log_df (name s)
          ∧ completed_lectures s < subject_credits log_df (name s))
  ∧ sync_changed log_df (sync_subjects_with_log log_df subjects) = false
  ∧ sync_subjects_with_log log_df (sync_subjects_with_log log_df subjects)
    = sync_subjects_with_log log_df subjects.
Proof.
  split.
  - unfold sync_changed. rewrite bool_decide_eq_true.
    unfold sync_subjects_with_log.
    destruct (decide (subjects = [])) as [-> | _].
    + split; [done | by intros (s & ?%elem_of_nil & _)].
    + rewrite fmap_neq_exists. by setoid_rewrite sync_subject_changes.
  - split; [| apply sync_subjects_idempotent].
    unfold sync_changed. rewrite bool_decide_eq_false.
    rewrite sync_subjects_idempotent. by intros [].
Qed.

Lemma get_lecture_increment_range (block_name : string) :
  0 <= get_lecture_increment block_name <= 2.
Proof.
  unfold get_lecture_increment. cbv zeta.
  repeat match goal with
    | |- context [PyStr.contains ?p ?s] => destruct (PyStr.contains p s)
    end; cbn; lia.
Qed.

(** X18. The progress dictionary has a key exactly for the non-empty subjects
    that occur in the log; a subject's credits lie between 0 and twice
    the number of its done rows, and rows added to the log never lower
    them. *)
Theorem subject_progress_bounds (log_df rows : list log_entry) (nm : string) :
  (is_Some (compute_subject_progress log_df !! nm) ↔ logged_subject log_df nm)
  ∧ 0 <= subject_credits log_df nm
       <= 2 * Z.of_nat (length (filter (λ r, log_done r = true)
                                 (filter (λ r, log_subject r = Some nm) log_df)))
  ∧ subject_credits log_df nm <= subject_credits (log_df ++ rows) nm.
Proof.
  assert (∀ l : list log_entry,
            0 <= foldr Z.add 0 (get_lecture_increment <$> (log_block <$> l))
              <= 2 * Z.of_nat (length l)) as Hsum.
  { induction l as [|r l IH]; [cbn; lia |].
    cbn [fmap list_fmap foldr length].
    pose proof (get_lecture_increment_range (log_block r)). lia. }
  split.
  - split.
    + intros [p Hp]. by apply compute_subject_progress_lookup in Hp as [? _].
    + intros Hlogged. exists (subject_credits log_df nm).
      by apply compute_subject_progress_lookup.
  - split; [apply Hsum |]. unfold subject_credits.
    rewrite !filter_app, !fmap_app, foldr_app.
    pose proof (Hsum (filter (λ r, log_done r = true)
                        (filter (λ r, log_subject r = Some nm) rows))) as Hrows.
    revert Hrows. generalize (foldr Z.add 0
      (get_lecture_increment
         <$> (log_block
                <$> filter (λ r, log_done r = true)
                      (filter (λ r, log_subject r = Some nm) rows)))).
    intros z Hz.
    generalize (get_lecture_increment
      <$> (log_block
             <$> filter (λ r, log_done r = true)
                   (filter (λ r, log_subject r = Some nm) log_df))).
    intros l. induction l as [|x l IH]; cbn; lia.
Qed.

(** ** Sidebar: the effective phase *)

Lemma PHASE_LABELS_lookup (phase : Z) :
  is_Some (PHASE_LABELS !! phase) ↔ 1 <= phase <= 4.
Proof.
  unfold PHASE_LABELS. cbn [list_to_map foldr uncurry curry fst snd].
  rewrite !lookup_insert, lookup_empty.
  repeat case_decide; subst;
    (split; [intros Hsome; try lia; by destruct Hsome
            | intros Hrange; try lia; done]).
Qed.

(** X19. Whenever the sidebar gets through, the effective phase lies in 1..4,
    so the tabs never see another phase.  A manual phase outside 1..4
    raises when it is the one in force; in the automatic mode the phase
    is the one picked in the select box, whose default always exists. *)
Theorem sidebar_phase_in_range (saved_ctx : option (Z * string * string))
    (use_saved_ctx auto_phase : bool)
    (manual_phase selected_week selected_phase : Z) :
  selected_phase ∈ phase_options →
  (∀ phase header,
     sidebar_effective_phase saved_ctx use_saved_ctx auto_phase manual_phase
       selected_week selected_phase = Some (phase, header) →
     1 <= phase <= 4)
  ∧ (is_Some (sidebar_effective_phase None use_saved_ctx false manual_phase
                selected_week selected_phase)
     ↔ 1 <= manual_phase <= 4)
  ∧ fst <$> sidebar_effective_phase None use_saved_ctx true manual_phase
              selected_week selected_phase
    = Some selected_phase.
Proof.
  intros Hsel. split; [| split].
  - intros phase header. unfold sidebar_effective_phase. cbv zeta.
    intros Hside. apply bind_Some in Hside as (p & _ & Hside).
    apply bind_Some in Hside as (emoji & _ & Hside).
    apply bind_Some in Hside as (label & Hlabel & [= <- _]).
    by apply PHASE_LABELS_lookup.
  - unfold sidebar_effective_phase. cbv zeta. cbn [mbind option_bind].
    pose proof (PHASE_LABELS_lookup manual_phase) as Hrange.
    destruct (PHASE_LABELS !! manual_phase) as [label|] eqn:Hlabel.
    + assert (1 <= manual_phase <= 4) as Hm by (by apply Hrange).
      split; [done | intros _].
      assert (manual_phase = 1 ∨ manual_phase = 2 ∨ manual_phase = 3
              ∨ manual_phase = 4) as [-> | [-> | [-> | ->]]] by lia;
        vm_compute; eexists; reflexivity.
    + cbn. split; [by intros [] | intros Hm]. by apply Hrange in Hm as [].
  - unfold sidebar_effective_phase, get_phase_by_week. cbv zeta.
    assert (selected_phase = 1 ∨ selected_phase = 2 ∨ selected_phase = 3
            ∨ selected_phase = 4) as Hcases.
    { unfold phase_options in Hsel.
      rewrite !elem_of_cons, elem_of_nil in Hsel. tauto. }
    repeat case_decide;
      destruct Hcases as [-> | [-> | [-> | ->]]]; by vm_compute.
Qed.

Lemma sidebar_phase_in_range_witness :
  3 ∈ phase_options
  ∧ (is_Some (sidebar_effective_phase None false false 0 2 3) ↔ 1 <= 0 <= 4).
Proof.
  assert (3 ∈ phase_options) as Hsel by (by apply (bool_decide_unpack _)).
  split; [exact Hsel |].
  apply (sidebar_phase_in_range None false false 0 2 3 Hsel).
Defined.

(** ** Badges *)

Lemma half_total_le (total completed : Z) :
  Qle_bool (inject_Z total * 0.5) (inject_Z completed) = true
  ↔ total <= 2 * completed.
Proof.
  unfold Qle_bool, inject_Z, Qmult. cbn [Qnum Qden].
  rewrite Z.leb_le. cbn. lia.
Qed.

(** The loop over the subjects adds one badge for every subject that has
    completed at least half of its lectures, a gold one exactly when it
    has completed them all. *)
Lemma subject_badges_count (subjects : list subject) (badges : list (string * string)) :
  let result :=
    foldl (λ badges s,
             if decide (completed_lectures s >= total_lectures s)
             then badges ++ [("📚 " +:+ name s +:+ " 완주!", "gold")]
             else if Qle_bool (inject_Z (total_lectures s) * 0.5)
                       (inject_Z (completed_lectures s))
             then badges ++ [("📖 " +:+ name s +:+ " 50%", "silver")]
             else badges)
          badges subjects in
  length result
  = (length badges
     + length (filter (λ s, (total_lectures s <= completed_lectures s
                             ∨ total_lectures s <= 2 * completed_lectures s)%Z)
                 subjects))%nat
  ∧ length (filter (λ b, b.2 = "gold") result)
    = (length (filter (λ b, b.2 = "gold") badges)
       + length (filter (λ s, (total_lectures s <= completed_lectures s)%Z)
                   subjects))%nat.
Proof.
  cbv zeta. revert badges.
  induction subjects as [|s subjects IH]; intros badges; [cbn; lia |].
  cbn [foldl]. destruct (decide (completed_lectures s >= total_lectures s)).
  - destruct (IH (badges ++ [("📚 " +:+ name s +:+ " 완주!", "gold")]))
      as [-> ->].
    rewrite !filter_cons_True by lia.
    rewrite filter_app, !length_app.
    rewrite (filter_cons_True (λ b, b.2 = "gold")) by done.
    rewrite filter_nil. cbn [length]. lia.
  - destruct (Qle_bool _ _) eqn:Hhalf.
    + apply half_total_le in Hhalf.
      destruct (IH (badges ++ [("📖 " +:+ name s +:+ " 50%", "silver")]))
        as [-> ->].
      rewrite filter_cons_True by lia. rewrite filter_cons_False by lia.
      rewrite filter_app, !length_app.
      rewrite (filter_cons_False (λ b, b.2 = "gold")) by done.
      rewrite filter_nil. cbn [length]. lia.
    + assert (¬ total_lectures s <= 2 * completed_lectures s) as Hnot.
      { intros Hle%half_total_le. congruence. }
      destruct (IH badges) as [-> ->].
      rewrite !filter_cons_False by lia. done.
Qed.

(** X20. The badges, for subjects whose totals are below 2^53 in magnitude
    (where half the total is an exact float): one streak badge from a
    streak of 7 on (gold from 30 on) and none below; one badge for every
    subject that has completed at least half of its lectures, gold
    exactly when it has completed them all, as a subject with no
    lectures to complete has. *)
Theorem get_badges_count (log_df : list log_entry) (subjects : list subject)
    (streak : Z) :
  Forall (λ s, - 2 ^ 53 < total_lectures s < 2 ^ 53) subjects →
  let badges := get_badges log_df subjects streak in
  length badges
  = ((if decide (7 <= streak)%Z then 1 else 0)
     + length (filter (λ s, (total_lectures s <= completed_lectures s
                             ∨ total_lectures s <= 2 * completed_lectures s)%Z)
                 subjects))%nat
  ∧ length (filter (λ b, b.2 = "gold") badges)
    = ((if decide (30 <= streak)%Z then 1 else 0)
       + length (filter (λ s, (total_lectures s <= completed_lectures s)%Z)
                   subjects))%nat.
Proof.
  intros _. cbv zeta. unfold get_badges. cbv zeta.
  match goal with
  | |- context [foldl _ ?b subjects] =>
      destruct (subject_badges_count subjects b) as [-> ->]
  end.
  repeat case_decide; try lia; done.
Qed.

Lemma get_badges_count_witness :
  Forall (λ s, - 2 ^ 53 < total_lectures s < 2 ^ 53) sample_subjects
  ∧ get_badges [] sample_subjects 14
    = [("🥈 14일 연속", "silver"); ("📖 민법 50%", "silver");
       ("📚 특허법 완주!", "gold"); ("📚 상표법 완주!", "gold")]
  ∧ length (get_badges [] sample_subjects 14) = (1 + 3)%nat
  ∧ length (filter (λ b, b.2 = "gold") (get_badges [] sample_subjects 14))
    = (0 + 2)%nat.
Proof.
  assert (Forall (λ s, - 2 ^ 53 < total_lectures s < 2 ^ 53) sample_subjects)
    as Htotals by (by apply (bool_decide_unpack _)).
  split; [exact Htotals |]. split; [reflexivity |].
  exact (get_badges_count [] sample_subjects 14 Htotals).
Defined.

(** ** Heatmap *)

Lemma heatmap_daily_data_lookup (today start : date) (log_df : list log_entry)
    (cd : date) :
  heatmap_daily_data today start log_df !! cd
  = if decide (start <= cd <= today ∧ rows_of_date cd log_df ≠ [])
    then Some (sum_minutes (rows_of_date cd log_df)) else None.
Proof.
  unfold heatmap_daily_data. case_decide as Hnil.
  { subst. rewrite lookup_empty. by rewrite decide_False by (by intros [_ ?]). }
  assert (∀ (ks : list Z) (m0 : gmap Z Z),
    foldl (λ daily_data d,
             let rows := rows_of_date d log_df in
             if decide (rows ≠ []) then <[d := sum_minutes rows]> daily_data
             else daily_data) m0 ks !! cd
    = if decide (cd ∈ ks ∧ rows_of_date cd log_df ≠ [])
      then Some (sum_minutes (rows_of_date cd log_df)) else m0 !! cd) as Hfold.
  { induction ks as [|k ks IH]; intros m0.
    - cbn. by rewrite decide_False by (by intros [?%elem_of_nil _]).
    - cbn [foldl]. rewrite IH. cbv zeta.
      destruct (decide (cd ∈ ks ∧ rows_of_date cd log_df ≠ [])) as [[? ?] | Hks].
      + rewrite decide_True; [done |]. split; [by right | done].
      + destruct (decide (cd = k)) as [-> | Hk].
        * destruct (decide (rows_of_date k log_df ≠ [])) as [Hrows | Hrows].
          -- rewrite lookup_insert_eq.
             rewrite decide_True; [done |]. split; [by left | done].
          -- rewrite decide_False; [done |]. tauto.
        * rewrite (decide_False (P := cd ∈ k :: ks ∧ _)).
          2:{ intros [[? | ?]%elem_of_cons ?]; tauto. }
          case_decide; [by rewrite lookup_insert_ne | done]. }
  rewrite Hfold, lookup_empty. apply decide_ext.
  rewrite elem_of_seqZ. split; intros [? ?]; split; try done; lia.
Qed.

(** X21. The heatmap has one column per week and seven cells per column.
    Its cells are the [7 * weeks] days that end on the Sunday before the
    week of today: no cell is today or a later day, so the colour of
    future days is never used.  A day with no row is drawn in the
    no-record colour, every other day in the colour of its minutes.
    This is for a start date and a today that are dates and pandas
    timestamps (ordinals 612412 to 825914) and for days whose minutes,
    from the start date to today, add up to int64 values. *)
Theorem render_heatmap_cells (today : date) (log_df : list log_entry)
    (weeks : Z) (grid : list (list (date * string))) :
  612412 <= today - 7 * weeks - weekday today →
  today <= 825914 →
  Forall (λ d, in_int64 (sum_minutes (rows_of_date d log_df)))
    (seqZ (today - 7 * weeks - weekday today)
       (7 * weeks + weekday today + 1)) →
  render_heatmap today log_df weeks = Some grid →
  let monday := today - weekday today in
  length grid = Z.to_nat weeks
  ∧ Forall (λ column,
        length column = 7%nat
        ∧ Forall (λ cell : date * string,
              monday - 7 * weeks <= cell.1 < monday
              ∧ cell.1 < today
              ∧ cell.2 ≠ "#1a1a1a"
              ∧ cell.2
                = (if decide (rows_of_date cell.1 log_df = []) then "#2d3436"
                   else heatmap_color (sum_minutes (rows_of_date cell.1 log_df))))
            column)
      grid.
Proof.
  intros _ _ _.
  unfold render_heatmap. cbv zeta. case_decide as Hweeks; [done |].
  intros Hgrid. apply (inj Some) in Hgrid. subst grid.
  split; [by rewrite length_fmap, length_seqZ |].
  apply Forall_fmap, Forall_forall. intros w [Hw0 Hw]%elem_of_seqZ. unfold compose. cbv beta zeta.
  split; [by rewrite length_fmap, length_seqZ |].
  apply Forall_fmap, Forall_forall. intros d [Hd0 Hd]%elem_of_seqZ.
  unfold compose. cbv beta zeta. cbn [fst snd].
  pose proof (Z.mod_pos_bound (today + 6) 7 ltac:(lia)) as Hwd.
  fold (weekday today) in Hwd.
  set (cd := today - (7 * weeks + weekday today) + 7 * w + d).
  assert (cd < today - weekday today) as Hcd by (subst cd; lia).
  split; [subst cd; lia |]. split; [lia |].
  rewrite (decide_False (P := cd > today)) by lia.
  rewrite heatmap_daily_data_lookup.
  destruct (decide (rows_of_date cd log_df = [])) as [Hrows | Hrows].
  - rewrite decide_False by tauto. done.
  - rewrite decide_True by (split; [subst cd; lia | done]).
    split; [| done]. unfold heatmap_color. by repeat case_decide.
Qed.

Lemma render_heatmap_cells_witness :
  612412 <= 739000 - 7 * 1 - weekday 739000
  ∧ 739000 <= 825914
  ∧ render_heatmap 739000 recent_log 1
    = Some [[(738991, "#2d3436"); (738992, "#2d3436"); (738993, "#2d3436");
             (738994, "#2d3436"); (738995, "#007a5e"); (738996, "#007a5e");
             (738997, "#2d3436")]]
  ∧ length [[(738991, "#2d3436"); (738992, "#2d3436"); (738993, "#2d3436");
             (738994, "#2d3436"); (738995, "#007a5e"); (738996, "#007a5e");
             (738997, "#2d3436")]]
    = Z.to_nat 1.
Proof.
  assert (612412 <= 739000 - 7 * 1 - weekday 739000) as Hstart
    by (by vm_compute).
  assert (739000 <= 825914) as Htoday by lia.
  split; [exact Hstart |]. split; [exact Htoday |].
  split; [by vm_compute |].
  apply (render_heatmap_cells 739000 recent_log 1 _ Hstart Htoday).
  - by apply (bool_decide_unpack _).
  - by vm_compute.
Defined.

(** ** Weekly and daily minutes *)

Lemma sum_minutes_cons (r : log_entry) (rows : list log_entry) :
  sum_minutes (r :: rows) = log_estimated_minutes r + sum_minutes rows.
Proof. done. Qed.

(** X22. The minutes of the weekly summary are the sum of the minutes of the
    seven days of the week, Monday to Sunday.  This is for a reference
    date whose week lies within the calendar (ordinals 1 to 3652053) and
    for minutes whose sums, over the week and over each of its days, are
    int64 values, so that no sum wraps. *)
Theorem weekly_minutes_by_day (log_df : list log_entry) (week_ref : date) :
  1 <= week_ref <= 3652053 →
  in_int64 (sum_minutes (week_rows log_df week_ref)) →
  Forall (λ k, in_int64 (sum_minutes
                           (rows_of_date ((get_week_range week_ref).1 + k) log_df)))
    (seqZ 0 7) →
  sum_minutes (week_rows log_df week_ref)
  = foldr Z.add 0
      ((λ k, sum_minutes (rows_of_date ((get_week_range week_ref).1 + k) log_df))
         <$> seqZ 0 7).
Proof.
  intros _ _ _.
  unfold week_rows, get_week_range, rows_of_date. cbn [fst].
  generalize (week_ref - weekday week_ref). intros monday. cbv zeta.
  replace (seqZ 0 7) with [0; 1; 2; 3; 4; 5; 6] by reflexivity.
  cbn [fmap list_fmap foldr].
  induction log_df as [|r log_df IH]; [done |].
  rewrite !filter_cons.
  repeat (case_decide; try (exfalso; lia));
    rewrite ?sum_minutes_cons; lia.
Qed.

Lemma weekly_minutes_by_day_witness :
  1 <= 10 <= 3652053
  ∧ in_int64 (sum_minutes (week_rows week_of_1078_minutes 10))
  ∧ sum_minutes (week_rows week_of_1078_minutes 10)
    = foldr Z.add 0
        ((λ k, sum_minutes
                 (rows_of_date ((get_week_range 10).1 + k) week_of_1078_minutes))
           <$> seqZ 0 7).
Proof.
  assert (1 <= 10 <= 3652053) as Hweek by lia.
  assert (in_int64 (sum_minutes (week_rows week_of_1078_minutes 10))) as Hsum
    by (by apply (bool_decide_unpack _)).
  split; [exact Hweek |]. split; [exact Hsum |].
  apply (weekly_minutes_by_day week_of_1078_minutes 10 Hweek Hsum).
  by apply (bool_decide_unpack _).
Defined.

(** X5. For a date whose week lies within the calendar (ordinals 1 to
    3652053), the seven days of its week range are dates, and they are
    five weekdays, then a Saturday and a Sunday. *)
Theorem week_day_types (d : date) :
  1 <= d <= 3652053 →
  Forall (λ day, 1 <= day <= 3652059)
    ((λ k, (get_week_range d).1 + k) <$> seqZ 0 7)
  ∧ get_day_type <$> ((λ k, (get_week_range d).1 + k) <$> seqZ 0 7)
    = ["weekday"; "weekday"; "weekday"; "weekday"; "weekday"; "sat"; "sun"].
Proof.
  intros Hd. replace (seqZ 0 7) with [0; 1; 2; 3; 4; 5; 6] by reflexivity.
  unfold get_week_range, get_day_type, weekday. cbn [fst fmap list_fmap].
  pose proof (Z.div_mod (d + 6) 7 ltac:(lia)).
  pose proof (Z.mod_pos_bound (d + 6) 7 ltac:(lia)).
  split; [repeat constructor; lia |].
  assert (∀ k, 0 <= k < 7 → (d - (d + 6) mod 7 + k + 6) mod 7 = k) as Hk.
  { intros k Hk.
    replace (d - (d + 6) mod 7 + k + 6) with (k + (d + 6) / 7 * 7) by lia.
    rewrite Z.mod_add by lia. by apply Z.mod_small. }
  rewrite !Hk by lia. done.
Qed.

Lemma week_day_types_witness :
  1 <= 739000 <= 3652053
  ∧ get_day_type <$> ((λ k, (get_week_range 739000).1 + k) <$> seqZ 0 7)
    = ["weekday"; "weekday"; "weekday"; "weekday"; "weekday"; "sat"; "sun"].
Proof.
  assert (1 <= 739000 <= 3652053) as Hd by lia.
  split; [exact Hd |]. exact (proj2 (week_day_types 739000 Hd)).
Defined.
